(** * WgCtl: a client for a 64-byte door-controller command protocol

    Shallow embedding of [src/WgCtl.ts] and of the part of the Node.js
    [Buffer] API it calls.

    Conventions of the embedding
    - a TypeScript [number] is a [Z] (integral values only);
    - a byte of a [Buffer] is a [Z] in [0, 255], a [Buffer] is a [list Z];
    - a JavaScript string is a [string] whose characters are read as the
      code units 0..255;
    - an optional field or argument ([x?: T]) is an [option T];
    - a thrown exception is the [Throw] case of [result]; mutations made
      before the throw stay in the state;
    - [console.log] / [console.warn] / [console.error] are dropped. *)

From Stdlib Require Import String Ascii ZArith List Bool Lia.
Import ListNotations.
Open Scope Z_scope.

(** ** Exceptions *)

Inductive JsError : Type :=
| ERR_OUT_OF_RANGE (arg : string)      (* RangeError *)
| ERR_BUFFER_OUT_OF_BOUNDS             (* RangeError *)
| ERR_INVALID_ARG_VALUE (arg : string) (* TypeError *)
| ERR_SOCKET_BAD_PORT                  (* RangeError *)
| Error (msg : string).                (* new Error(msg) *)

Inductive result (A : Type) : Type :=
| Ok (a : A)
| Throw (e : JsError).
Arguments Ok {A} a.
Arguments Throw {A} e.

Definition rbind {A B} (r : result A) (k : A -> result B) : result B :=
  match r with
  | Ok a => k a
  | Throw e => Throw e
  end.

Declare Scope result_scope.
Delimit Scope result_scope with result.
Notation "x <- r ;; k" := (rbind r (fun x => k))
  (at level 61, r at next level, right associativity) : result_scope.

(** ** The Node.js Buffer operations used by the class *)

Module Buffer.

Definition t := list Z.

(** [Buffer.alloc(n)]: [n] zero bytes. *)
Definition alloc (n : nat) : t := repeat 0 n.

(** [buf[offset .. offset + |bs|) := bs], for a range inside [buf]. *)
Definition splice (buf : t) (offset : nat) (bs : list Z) : t :=
  firstn offset buf ++ bs ++ skipn (offset + length bs) buf.

(** The [width] low bytes of [v], least significant first. *)
Fixpoint le_bytes (width : nat) (v : Z) : list Z :=
  match width with
  | O => []
  | S w => v mod 256 :: le_bytes w (v / 256)
  end.

(** [buf.writeUIntXXLE(value, offset)].  Node checks the value first
    ([value > max || value < min] throws ERR_OUT_OF_RANGE), then that
    [offset .. offset + width) lies in the buffer. *)
Definition writeUIntLE (width : nat) (buf : t) (value : Z) (offset : nat)
  : result t :=
  if (value >? 2 ^ (8 * Z.of_nat width) - 1) || (value <? 0)
  then Throw (ERR_OUT_OF_RANGE "value")
  else if (length buf <? offset + width)%nat
  then Throw ERR_BUFFER_OUT_OF_BOUNDS
  else Ok (splice buf offset (le_bytes width value)).

Definition writeUInt8 := writeUIntLE 1.
Definition writeUInt16LE := writeUIntLE 2.
Definition writeUInt32LE := writeUIntLE 4.

(** [n] bytes of the pattern [value] repeated. *)
Definition pattern (value : t) (n : nat) : list Z :=
  firstn n (concat (repeat value n)).

(** [buf.fill(value, offset, end)] with a Buffer [value]: an [end] past
    the buffer throws; an empty range returns the buffer as it is; an
    empty pattern over a non-empty range throws. *)
Definition fill (buf value : t) (offset end_ : nat) : result t :=
  if (length buf <? end_)%nat then Throw (ERR_OUT_OF_RANGE "end")
  else if (end_ <=? offset)%nat then Ok buf
  else match value with
       | [] => Throw (ERR_INVALID_ARG_VALUE "value")
       | _ => Ok (splice buf offset (pattern value (end_ - offset)))
       end.

(** Value of a hexadecimal digit. *)
Definition unhex (c : ascii) : option Z :=
  let n := Z.of_N (N_of_ascii c) in
  if (48 <=? n) && (n <=? 57) then Some (n - 48)
  else if (97 <=? n) && (n <=? 102) then Some (n - 87)
  else if (65 <=? n) && (n <=? 70) then Some (n - 55)
  else None.

(** Node's hex decoder: at most [len] bytes, two digits per byte; it
    stops at the first pair holding a character that is no hex digit,
    and drops a trailing single character. *)
Fixpoint hexDecode (len : nat) (s : string) : list Z :=
  match len, s with
  | S n, String a (String b rest) =>
      match unhex a, unhex b with
      | Some x, Some y => 16 * x + y :: hexDecode n rest
      | _, _ => []
      end
  | _, _ => []
  end.

(** [buf.write(str, offset, "hex")]: decodes into the room left after
    [offset]; what does not fit is dropped. *)
Definition write (buf : t) (str : string) (offset : nat) : result t :=
  if (length buf <? offset)%nat then Throw (ERR_OUT_OF_RANGE "offset")
  else Ok (splice buf offset (hexDecode (length buf - offset) str)).

(** [Buffer.from(str, "hex")]. *)
Definition from (str : string) : t :=
  hexDecode (Nat.div (String.length str) 2) str.

(** Bytes [i .. i + n) of a buffer. *)
Definition slice (buf : t) (i n : nat) : list Z := firstn n (skipn i buf).

End Buffer.

(** [/\s/] on the code units 0..255: TAB, LF, VT, FF, CR, SPACE, NBSP. *)
Definition isSpace (c : ascii) : bool :=
  let n := Z.of_N (N_of_ascii c) in
  ((9 <=? n) && (n <=? 13)) || (n =? 32) || (n =? 160).

(** [str.replace(/\s/g, "")]. *)
Fixpoint stripSpace (s : string) : string :=
  match s with
  | EmptyString => EmptyString
  | String c rest =>
      if isSpace c then stripSpace rest else String c (stripSpace rest)
  end.

(** ** The instance *)

Record Datagram : Type := mkDatagram {
  dgData : Buffer.t;
  dgPort : Z;
  dgAddress : string
}.

(** The UDP socket as the class sees it: the broadcast flag, the datagrams
    handed to [send], and whether the one-shot ["message"] listener of
    [detect] is installed. *)
Record UdpSocket : Type := mkUdp {
  broadcast : bool;
  outbox : list Datagram;
  onceMessage : bool
}.

(** The TCP socket: the buffers handed to [write]. *)
Record TcpSocket : Type := mkTcp {
  written : list Buffer.t
}.

Inductive Socket : Type :=
| Udp (s : UdpSocket)
| Tcp (s : TcpSocket).

Inductive Promise : Type :=
| Pending
| Fulfilled (v : bool).

(** The fields of the class, and [awaiting]: whether the body of [detect]
    is suspended at [await this.detected]. *)
Record WgCtl : Type := mkWgCtl {
  ip : string;
  port : Z;
  serial : option Z;
  localSocket : option UdpSocket;
  remoteSocket : option TcpSocket;
  detected : Promise;
  serverIp : option string;
  serverPort : option Z;
  awaiting : bool
}.

Definition set_ip (v : string) (w : WgCtl) : WgCtl :=
  mkWgCtl v (port w) (serial w) (localSocket w) (remoteSocket w)
          (detected w) (serverIp w) (serverPort w) (awaiting w).
Definition set_port (v : Z) (w : WgCtl) : WgCtl :=
  mkWgCtl (ip w) v (serial w) (localSocket w) (remoteSocket w)
          (detected w) (serverIp w) (serverPort w) (awaiting w).
Definition set_serial (v : option Z) (w : WgCtl) : WgCtl :=
  mkWgCtl (ip w) (port w) v (localSocket w) (remoteSocket w)
          (detected w) (serverIp w) (serverPort w) (awaiting w).
Definition set_localSocket (v : option UdpSocket) (w : WgCtl) : WgCtl :=
  mkWgCtl (ip w) (port w) (serial w) v (remoteSocket w)
          (detected w) (serverIp w) (serverPort w) (awaiting w).
Definition set_remoteSocket (v : option TcpSocket) (w : WgCtl) : WgCtl :=
  mkWgCtl (ip w) (port w) (serial w) (localSocket w) v
          (detected w) (serverIp w) (serverPort w) (awaiting w).
Definition set_detected (v : Promise) (w : WgCtl) : WgCtl :=
  mkWgCtl (ip w) (port w) (serial w) (localSocket w) (remoteSocket w)
          v (serverIp w) (serverPort w) (awaiting w).
Definition set_serverIp (v : option string) (w : WgCtl) : WgCtl :=
  mkWgCtl (ip w) (port w) (serial w) (localSocket w) (remoteSocket w)
          (detected w) v (serverPort w) (awaiting w).
Definition set_serverPort (v : option Z) (w : WgCtl) : WgCtl :=
  mkWgCtl (ip w) (port w) (serial w) (localSocket w) (remoteSocket w)
          (detected w) (serverIp w) v (awaiting w).
Definition set_awaiting (v : bool) (w : WgCtl) : WgCtl :=
  mkWgCtl (ip w) (port w) (serial w) (localSocket w) (remoteSocket w)
          (detected w) (serverIp w) (serverPort w) v.

(** JavaScript truthiness of the values the class tests. *)
Definition truthyStr (s : string) : bool :=
  match s with EmptyString => false | _ => true end.
Definition truthyNum (n : Z) : bool := negb (n =? 0).
Definition truthyOptStr (o : option string) : bool :=
  match o with Some s => truthyStr s | None => false end.
Definition truthyOptNum (o : option Z) : bool :=
  match o with Some n => truthyNum n | None => false end.
Definition isSome {A} (o : option A) : bool :=
  match o with Some _ => true | None => false end.

(** The [payload?: string | number | Buffer] argument of [packData]. *)
Inductive Payload : Type :=
| PBuffer (b : Buffer.t)
| PNumber (n : Z)
| PString (s : string).

(** [if (payload)]: [undefined], [0] and [""] are falsy, every Buffer is
    truthy. *)
Definition truthyPayload (p : option Payload) : bool :=
  match p with
  | None => false
  | Some (PBuffer _) => true
  | Some (PNumber n) => truthyNum n
  | Some (PString s) => truthyStr s
  end.

(** [packData(funcCode, payload)]. *)
Definition packData (this : WgCtl) (funcCode : Z) (payload : option Payload)
  : result Buffer.t :=
  (let data := Buffer.alloc 64 in
   data <- Buffer.writeUInt8 data 0x17 0 ;;
   data <- Buffer.writeUInt8 data funcCode 1 ;;
   data <- (match serial this with
            | Some s => if truthyNum s then Buffer.writeUInt32LE data s 4
                        else Ok data
            | None => Ok data
            end) ;;
   if truthyPayload payload then
     match payload with
     | Some (PBuffer b) => Buffer.fill data b 8 (8 + length b)
     | Some (PNumber n) => Buffer.writeUInt8 data n 8
     | Some (PString s) => Buffer.write data (stripSpace s) 8
     | None => Ok data
     end
   else Ok data)%result.

(** ** Stateful methods: a state-and-exception monad over the instance *)

Definition M (A : Type) : Type := WgCtl -> result A * WgCtl.

Definition ret {A} (a : A) : M A := fun w => (Ok a, w).
Definition throw {A} (e : JsError) : M A := fun w => (Throw e, w).
Definition bind {A B} (m : M A) (k : A -> M B) : M B :=
  fun w =>
    match m w with
    | (Ok a, w') => k a w'
    | (Throw e, w') => (Throw e, w')
    end.
Definition get : M WgCtl := fun w => (Ok w, w).
Definition modify (f : WgCtl -> WgCtl) : M unit := fun w => (Ok tt, f w).
Definition lift {A} (r : result A) : M A := fun w => (r, w).

Declare Scope method_scope.
Delimit Scope method_scope with M.
Bind Scope method_scope with M.
Notation "x <- m ;; k" := (bind m (fun x => k))
  (at level 61, m at next level, right associativity) : method_scope.
Notation "m ;; k" := (bind m (fun _ => k))
  (at level 61, right associativity) : method_scope.

(** [socket.setBroadcast(flag)] and [socket.send(data, 0, data.byteLength,
    port, address, cb)] on the UDP socket; [socket.write(data, cb)] on the
    TCP socket.  [send] checks the port before it does anything: outside
    1..65535 it throws ERR_SOCKET_BAD_PORT at once and hands nothing over.
    The callbacks only log, or reset the broadcast flag after a failed
    send; they run later and are not part of a command. *)
Definition setBroadcast (flag : bool) (s : UdpSocket) : UdpSocket :=
  mkUdp flag (outbox s) (onceMessage s).
Definition send (d : Datagram) (s : UdpSocket) : result UdpSocket :=
  if (1 <=? dgPort d) && (dgPort d <=? 65535)
  then Ok (mkUdp (broadcast s) (outbox s ++ [d]) (onceMessage s))
  else Throw ERR_SOCKET_BAD_PORT.
Definition once (s : UdpSocket) : UdpSocket :=
  mkUdp (broadcast s) (outbox s) true.
Definition removeListener (s : UdpSocket) : UdpSocket :=
  mkUdp (broadcast s) (outbox s) false.
Definition tcpWrite (data : Buffer.t) (s : TcpSocket) : TcpSocket :=
  mkTcp (written s ++ [data]).

Definition remoteSendData (data : Buffer.t) : M unit :=
  (this <- get ;;
   match remoteSocket this with
   | None => ret tt
   | Some s => modify (set_remoteSocket (Some (tcpWrite data s)))
   end)%M.

Definition localSendData (data : Buffer.t) : M unit :=
  (this <- get ;;
   match localSocket this with
   | None => ret tt
   | Some s =>
       let s := if negb (truthyStr (ip this)) then setBroadcast true s
                else s in
       let address := if truthyStr (ip this) then ip this
                      else "255.255.255.255"%string in
       modify (set_localSocket (Some s)) ;;
       s <- lift (send (mkDatagram data (port this) address) s) ;;
       modify (set_localSocket (Some s))
   end)%M.

Definition sendData (funcCode : Z) (payload : option Payload) : M unit :=
  (this <- get ;;
   data <- lift (packData this funcCode payload) ;;
   if isSome (remoteSocket this) then remoteSendData data
   else localSendData data)%M.

(** ** Commands *)

Definition search : M unit := sendData 0x94 None.

Definition openDoor (door : Z) : M unit := sendData 0x40 (Some (PNumber door)).

Definition getDate : M unit := sendData 0x32 None.

(** The 16-byte payload built by [setAuth]. *)
Definition setAuthPayload (cardNo door : Z) : result Buffer.t :=
  (let payload := Buffer.alloc 16 in
   payload <- Buffer.writeUInt32LE payload cardNo 0 ;;
   payload <- Buffer.write payload "20190101" 4 ;;
   payload <- Buffer.write payload "20291231" 8 ;;
   payload <- Buffer.writeUInt8 payload (if door =? 1 then 1 else 0) 12 ;;
   payload <- Buffer.writeUInt8 payload (if door =? 2 then 1 else 0) 13 ;;
   payload <- Buffer.writeUInt8 payload (if door =? 3 then 1 else 0) 14 ;;
   Buffer.writeUInt8 payload (if door =? 4 then 1 else 0) 15)%result.

Definition setAuth (cardNo door : Z) : M unit :=
  (payload <- lift (setAuthPayload cardNo door) ;;
   sendData 0x50 (Some (PBuffer payload)))%M.

Definition getAuth (cardNo : Z) : M unit :=
  (payload <- lift (Buffer.writeUInt32LE (Buffer.alloc 56) cardNo 0) ;;
   sendData 0x5a (Some (PBuffer payload)))%M.

Definition removeAuth (cardNo : Z) : M unit :=
  (payload <- lift (Buffer.writeUInt32LE (Buffer.alloc 56) cardNo 0) ;;
   sendData 0x52 (Some (PBuffer payload)))%M.

Definition clearAuth : M unit :=
  sendData 0x54 (Some (PBuffer (Buffer.from "55aaaa55"))).

Definition getServerAddress : M unit := sendData 0x92 None.

(** A decoded discovery reply; only these two fields are read. *)
Record Reply : Type := mkReply {
  replySerial : Z;
  replyIp : string
}.

Section Collaborators.

(** Functions of [./utils], which is not part of the sources at hand:
    the dotted-quad to hex-string encoder, the date encoder (its result
    is handed to [sendData] as it is) and the reply decoder, which may
    throw. *)
Variable ipToHex : string -> string.
Variable Date : Type.
Variable buildBcdDate : Date -> Payload.
Variable parseData : Buffer.t -> result Reply.

(** [setDate(date?)]; [now] is the value of [new Date()]. *)
Definition setDate (date : option Date) (now : Date) : M unit :=
  sendData 0x30
    (Some (buildBcdDate (match date with Some d => d | None => now end))).

(** The 7-byte payload built by [setServerAddress]. *)
Definition setServerAddressPayload (ip0 : string) (port0 interval : Z)
  : result Buffer.t :=
  (let payload := Buffer.alloc 7 in
   payload <- Buffer.write payload (ipToHex ip0) 0 ;;
   payload <- Buffer.writeUInt16LE payload port0 4 ;;
   Buffer.writeUInt8 payload interval 6)%result.

(** [setServerAddress(ip, port, interval = 0)]. *)
Definition setServerAddress (ip0 : string) (port0 : Z)
           (interval : option Z) : M unit :=
  (let interval := match interval with Some i => i | None => 0 end in
   payload <- lift (setServerAddressPayload ip0 port0 interval) ;;
   sendData 0x90 (Some (PBuffer payload)))%M.

(** The 16-byte payload built by [setAddress]. *)
Definition setAddressPayload (ip0 subnet gateway : string)
  : result Buffer.t :=
  (let payload := Buffer.alloc 16 in
   payload <- Buffer.write payload (ipToHex ip0) 0 ;;
   payload <- Buffer.write payload (ipToHex subnet) 4 ;;
   payload <- Buffer.write payload (ipToHex gateway) 8 ;;
   Buffer.write payload "55aaaa55" 12)%result.

Definition setAddress (ip0 subnet gateway : string) : M unit :=
  (payload <- lift (setAddressPayload ip0 subnet gateway) ;;
   sendData 0x96 (Some (PBuffer payload)) ;;
   modify (set_ip ""))%M.

(** *** Discovery *)

(** [resolve(true)] of the promise stored in [detected]: settles it if
    it is still pending. *)
Definition resolve (v : bool) : M unit :=
  modify (fun w => match detected w with
                   | Pending => set_detected (Fulfilled v) w
                   | Fulfilled _ => w
                   end).

(** [data.serial !== this.serial]. *)
Definition serialDiffers (s : Z) (o : option Z) : bool :=
  match o with
  | Some s' => negb (s =? s')
  | None => true
  end.

(** [detect()] up to its [await]: the guard, the [search] broadcast, the
    new pending promise with its one-shot listener, and the suspension. *)
Definition detect : M unit :=
  (this <- get ;;
   if negb (truthyOptStr (serverIp this))
      || negb (truthyOptNum (serverPort this))
   then throw (Error "Detect is not available when server ip and port undefined.")
   else
     search ;;
     modify (set_detected Pending) ;;
     this <- get ;;
     match localSocket this with
     | None => ret tt
     | Some s => modify (set_localSocket (Some (once s)))
     end ;;
     modify (set_awaiting true))%M.

(** The listener installed by [detect]. *)
Definition onMessage (msg : Buffer.t) : M unit :=
  (data <- lift (parseData msg) ;;
   this <- get ;;
   if serialDiffers (replySerial data) (serial this) then ret tt
   else
     (if (replyIp data =? "192.168.0.0")%string
      then modify (set_ip "")
      else modify (set_ip (replyIp data))) ;;
     resolve true)%M.

(** The socket emits ["message"]: a [once] listener is removed, then
    called. *)
Definition emitMessage (msg : Buffer.t) : M unit :=
  (this <- get ;;
   match localSocket this with
   | Some s =>
       if onceMessage s
       then modify (set_localSocket (Some (removeListener s))) ;;
            onMessage msg
       else ret tt
   | None => ret tt
   end)%M.

(** [detect()] after its [await], run once the promise is settled:
    [this.setServerAddress(this.serverIp, this.serverPort)].  [detect]
    suspends only after it has found both fields set, and nothing
    assigns them later; the other case lies outside the model. *)
Definition resumeDetect : M unit :=
  (this <- get ;;
   if awaiting this then
     match detected this with
     | Pending => ret tt
     | Fulfilled _ =>
         modify (set_awaiting false) ;;
         match serverIp this, serverPort this with
         | Some sip, Some sport => setServerAddress sip sport None
         | _, _ => throw (ERR_INVALID_ARG_VALUE "ip")
         end
     end
   else ret tt)%M.

(** One incoming datagram: the listener, then the continuation of
    [detect] if the listener settled the promise. *)
Definition receive (msg : Buffer.t) : M unit :=
  (emitMessage msg ;; resumeDetect)%M.

(** *** Construction *)

(** The object before the constructor body runs: no field is set. *)
Definition blank : WgCtl :=
  mkWgCtl "" 0 None None None Pending None None false.

(** [new WgCtl(socket, serial, serverIp, serverPort, ip = "", port = 60000)].
    An exception inside the asynchronous [detect] rejects the promise
    [detect] returns, which the constructor drops. *)
Definition constructor (socket : Socket) (serial0 : option Z)
           (serverIp0 : option string) (serverPort0 : option Z)
           (ip0 : option string) (port0 : option Z) : result WgCtl :=
  (let ip0 := match ip0 with Some s => s | None => ""%string end in
   let port0 := match port0 with Some p => p | None => 60000 end in
   let this := set_ip ip0 blank in
   let this := set_port port0 this in
   let this := set_serial serial0 this in
   this <- match socket with
           | Udp s =>
               let this := set_localSocket (Some s) this in
               let this := set_serverIp serverIp0 this in
               Ok (set_serverPort serverPort0 this)
           | Tcp s =>
               let this := set_remoteSocket (Some s) this in
               if truthyOptStr (serverIp this)
                  || truthyOptNum (serverPort this)
               then Throw (Error "Server ip and port only available for local mode.")
               else Ok this
           end ;;
   let this := set_detected (Fulfilled (truthyStr ip0)) this in
   if negb (truthyStr (ip this)) && isSome (localSocket this)
      && truthyOptNum (serial this)
   then Ok (snd (detect this))
   else Ok this)%result.

(** The public commands as data. *)
Inductive Command : Type :=
| CSearch
| COpenDoor (door : Z)
| CGetDate
| CSetDate (date : option Date) (now : Date)
| CSetAuth (cardNo door : Z)
| CGetAuth (cardNo : Z)
| CRemoveAuth (cardNo : Z)
| CClearAuth
| CSetServerAddress (ip0 : string) (port0 : Z) (interval : option Z)
| CSetAddress (ip0 subnet gateway : string)
| CGetServerAddress.

Definition run (c : Command) : M unit :=
  match c with
  | CSearch => search
  | COpenDoor door => openDoor door
  | CGetDate => getDate
  | CSetDate date now => setDate date now
  | CSetAuth cardNo door => setAuth cardNo door
  | CGetAuth cardNo => getAuth cardNo
  | CRemoveAuth cardNo => removeAuth cardNo
  | CClearAuth => clearAuth
  | CSetServerAddress ip0 port0 interval =>
      setServerAddress ip0 port0 interval
  | CSetAddress ip0 subnet gateway => setAddress ip0 subnet gateway
  | CGetServerAddress => getServerAddress
  end.

Definition isSetAddress (c : Command) : bool :=
  match c with
  | CSetAddress _ _ _ => true
  | _ => false
  end.

End Collaborators.

Arguments CSearch {Date}.
Arguments COpenDoor {Date} door.
Arguments CGetDate {Date}.
Arguments CSetDate {Date} date now.
Arguments CSetAuth {Date} cardNo door.
Arguments CGetAuth {Date} cardNo.
Arguments CRemoveAuth {Date} cardNo.
Arguments CClearAuth {Date}.
Arguments CSetServerAddress {Date} ip0 port0 interval.
Arguments CSetAddress {Date} ip0 subnet gateway.
Arguments CGetServerAddress {Date}.
Arguments run ipToHex {Date} buildBcdDate c.
Arguments isSetAddress {Date} c.
Arguments setDate {Date} buildBcdDate date now.

(** ** Vocabulary of the properties *)

Definition isByte (n : Z) : Prop := 0 <= n <= 255.

(** The configured port is one that [send] accepts. *)
Definition portFits (this : WgCtl) : Prop := 1 <= port this <= 65535.

(** The transport step cannot throw: the frame goes to the TCP socket, or
    the port is one that [send] accepts. *)
Definition transportReady (this : WgCtl) : Prop :=
  isSome (remoteSocket this) = true \/ portFits this.

(** The configured serial, if any, is an unsigned 32-bit number. *)
Definition serialFits (this : WgCtl) : Prop :=
  match serial this with
  | Some s => 0 <= s <= 4294967295
  | None => True
  end.

(** Bytes 4..7 of a frame. *)
Definition serialBytes (this : WgCtl) : list Z :=
  match serial this with
  | Some s => if truthyNum s then Buffer.le_bytes 4 s else [0; 0; 0; 0]
  | None => [0; 0; 0; 0]
  end.

Definition header (this : WgCtl) (funcCode : Z) : list Z :=
  [0x17; funcCode; 0; 0] ++ serialBytes this.

(** [bs] followed by zeros, 56 bytes in all. *)
Definition pad56 (bs : list Z) : list Z := bs ++ repeat 0 (56 - length bs).

(** Bytes 8..63 of a frame. *)
Definition body (payload : option Payload) : list Z :=
  match payload with
  | Some (PBuffer b) => pad56 b
  | Some (PNumber n) => pad56 [n]
  | Some (PString s) => pad56 (Buffer.hexDecode 56 (stripSpace s))
  | None => pad56 []
  end.

(** The payloads the encoder accepts. *)
Definition payloadFits (payload : option Payload) : Prop :=
  match payload with
  | Some (PBuffer b) => (length b <= 56)%nat
  | Some (PNumber n) => isByte n
  | _ => True
  end.

(** The second half of [packData]: the payload written into [data]. *)
Definition writePayload (data : Buffer.t) (payload : option Payload)
  : result Buffer.t :=
  if truthyPayload payload then
    match payload with
    | Some (PBuffer b) => Buffer.fill data b 8 (8 + length b)
    | Some (PNumber n) => Buffer.writeUInt8 data n 8
    | Some (PString s) => Buffer.write data (stripSpace s) 8
    | None => Ok data
    end
  else Ok data.

(** Instances used in the worked examples: a Local one still looking for
    its controller, a Local one that knows the controller's address, and a
    Remote one. *)
Definition exampleLocal : WgCtl :=
  mkWgCtl "" 60000 (Some 1001) (Some (mkUdp false [] false)) None
          (Fulfilled false) (Some "10.0.0.5"%string) (Some 9000) false.

Definition exampleKnown : WgCtl :=
  mkWgCtl "10.0.0.42" 60000 (Some 1001) (Some (mkUdp false [] false)) None
          (Fulfilled true) None None false.

Definition exampleRemote : WgCtl :=
  mkWgCtl "" 60000 (Some 1001) None (Some (mkTcp [])) (Fulfilled false)
          None None false.

(** Decoding of a little-endian byte sequence. *)
Definition fromLE (bs : list Z) : Z :=
  fold_right (fun b acc => b + 256 * acc) 0 bs.

(** The transport step of [sendData]: Remote if a TCP socket is held,
    Local otherwise. *)
Definition transmit (data : Buffer.t) : M unit :=
  fun w => if isSome (remoteSocket w) then remoteSendData data w
           else localSendData data w.

(** [m] leaves the observation [f] of the instance as it was, whether it
    returns or throws. *)
Definition preserves {T A} (f : WgCtl -> T) (m : M A) : Prop :=
  forall w, f (snd (m w)) = f w.

(** An observation that does not look at the sockets. *)
Definition socketBlind {T} (f : WgCtl -> T) : Prop :=
  (forall v w, f (set_localSocket v w) = f w) /\
  (forall v w, f (set_remoteSocket v w) = f w).

(** The four door flags written by [setAuth]. *)
Definition doorFlags (door : Z) : list Z :=
  [if door =? 1 then 1 else 0; if door =? 2 then 1 else 0;
   if door =? 3 then 1 else 0; if door =? 4 then 1 else 0].

(** The detect flow is waiting for a reply: its one-shot listener is
    installed on the socket [s], its promise is pending, its body is
    suspended, and the callback target it checked is [sip], [sport]. *)
Definition Searching (this : WgCtl) (s : UdpSocket) (sip : string)
           (sport : Z) : Prop :=
  localSocket this = Some s /\ onceMessage s = true /\
  detected this = Pending /\ awaiting this = true /\
  serverIp this = Some sip /\ serverPort this = Some sport.

(** The instance once the listener has accepted a reply: listener gone,
    cached ip replaced, promise fulfilled, body of [detect] resumed. *)
Definition accepted (newIp : string) (this : WgCtl) (s : UdpSocket) : WgCtl :=
  set_awaiting false
    (set_detected (Fulfilled true)
       (set_ip newIp (set_localSocket (Some (removeListener s)) this))).

(** A Local instance right after construction, waiting for a reply. *)
Definition exampleSearching : WgCtl :=
  mkWgCtl "" 60000 (Some 1001)
    (Some (mkUdp true
             [mkDatagram (header exampleLocal 0x94 ++ body None) 60000
                         "255.255.255.255"]
             true))
    None Pending (Some "10.0.0.5"%string) (Some 9000) true.

(** ** Vocabulary of the further properties *)

(** The first half of [packData]: the zeroed buffer with the marker, the
    function code and the serial written. *)
Definition packHeader (this : WgCtl) (funcCode : Z) : result Buffer.t :=
  (let data := Buffer.alloc 64 in
   data <- Buffer.writeUInt8 data 0x17 0 ;;
   data <- Buffer.writeUInt8 data funcCode 1 ;;
   match serial this with
   | Some s => if truthyNum s then Buffer.writeUInt32LE data s 4
               else Ok data
   | None => Ok data
   end)%result.

(** The function code each command hands to [sendData]. *)
Definition funcCodeOf {Date : Type} (c : Command Date) : Z :=
  match c with
  | CSearch => 0x94
  | COpenDoor _ => 0x40
  | CGetDate => 0x32
  | CSetDate _ _ => 0x30
  | CSetAuth _ _ => 0x50
  | CGetAuth _ => 0x5a
  | CRemoveAuth _ => 0x52
  | CClearAuth => 0x54
  | CSetServerAddress _ _ _ => 0x90
  | CSetAddress _ _ _ => 0x96
  | CGetServerAddress => 0x92
  end.

(** The payload each command hands to [sendData], or the exception thrown
    while building it. *)
Definition commandPayload (ipToHex : string -> string) {Date : Type}
           (buildBcdDate : Date -> Payload) (c : Command Date)
  : result (option Payload) :=
  match c with
  | CSearch | CGetDate | CGetServerAddress => Ok None
  | COpenDoor door => Ok (Some (PNumber door))
  | CSetDate date now =>
      Ok (Some (buildBcdDate (match date with Some d => d | None => now end)))
  | CSetAuth cardNo door =>
      rbind (setAuthPayload cardNo door) (fun b => Ok (Some (PBuffer b)))
  | CGetAuth cardNo | CRemoveAuth cardNo =>
      rbind (Buffer.writeUInt32LE (Buffer.alloc 56) cardNo 0)
            (fun b => Ok (Some (PBuffer b)))
  | CClearAuth => Ok (Some (PBuffer (Buffer.from "55aaaa55")))
  | CSetServerAddress ip0 port0 interval =>
      rbind (setServerAddressPayload ipToHex ip0 port0
               (match interval with Some i => i | None => 0 end))
            (fun b => Ok (Some (PBuffer b)))
  | CSetAddress ip0 subnet gateway =>
      rbind (setAddressPayload ipToHex ip0 subnet gateway)
            (fun b => Ok (Some (PBuffer b)))
  end.

(** Which sockets the instance holds. *)
Definition socketKind (this : WgCtl) : bool * bool :=
  (isSome (localSocket this), isSome (remoteSocket this)).

(** The callback of [localSocket.send] in [localSendData], called with an
    error: the broadcast flag is switched off if no ip is cached then. *)
Definition localSendFailed : M unit :=
  (this <- get ;;
   match localSocket this with
   | Some s =>
       if negb (truthyStr (ip this))
       then modify (set_localSocket (Some (setBroadcast false s)))
       else ret tt
   | None => ret tt
   end)%M.

(** An observation that does not change when a held socket is replaced
    by an updated one. *)
Definition socketStable {T} (f : WgCtl -> T) : Prop :=
  (forall s s0 w, localSocket w = Some s0 ->
                  f (set_localSocket (Some s) w) = f w) /\
  (forall t t0 w, remoteSocket w = Some t0 ->
                  f (set_remoteSocket (Some t) w) = f w).

(** An observation that looks neither at the cached ip nor at the state of
    the detect flow. *)
Definition flowBlind {T} (f : WgCtl -> T) : Prop :=
  (forall v w, f (set_ip v w) = f w) /\
  (forall v w, f (set_detected v w) = f w) /\
  (forall v w, f (set_awaiting v w) = f w).

(** The Local instance the constructor builds before it decides whether
    to start discovery. *)
Definition localPlain (s : UdpSocket) (serial0 : option Z)
           (serverIp0 : option string) (serverPort0 : option Z)
           (ip0 : option string) (port0 : option Z) : WgCtl :=
  let ipv := match ip0 with Some x => x | None => ""%string end in
  let portv := match port0 with Some p => p | None => 60000 end in
  mkWgCtl ipv portv serial0 (Some s) None (Fulfilled (truthyStr ipv))
          serverIp0 serverPort0 false.

(** Whether the one-shot listener of [detect] is installed. *)
Definition listening (this : WgCtl) : bool :=
  match localSocket this with
  | Some s => onceMessage s
  | None => false
  end.

(** The hex string [s] decodes to the four bytes [q] and to nothing
    more, whatever room beyond four bytes it is given. *)
Definition encodesQuad (s : string) (q : list Z) : Prop :=
  length q = 4%nat /\
  forall n, (4 < n)%nat -> Buffer.hexDecode n s = q.

(** The instance after the commands [cs], each run on what the one before
    it left, whether that one returned or threw. *)
Definition runAll (ipToHex : string -> string) {Date : Type}
           (buildBcdDate : Date -> Payload) (cs : list (Command Date))
           (w : WgCtl) : WgCtl :=
  fold_left (fun w c => snd (run ipToHex buildBcdDate c w)) cs w.

(** * Properties *)

(** ** Buffer lemmas *)

Module BufferFacts.
Import Buffer.

Lemma le_bytes_length (w : nat) (v : Z) : length (le_bytes w v) = w.
Proof.
  revert v; induction w as [|w IH]; intro v; simpl; [reflexivity|].
  now rewrite IH.
Qed.

Lemma writeUIntLE_value_ok (w : nat) (buf : t) (v : Z) (offset : nat) :
  0 <= v <= 2 ^ (8 * Z.of_nat w) - 1 ->
  writeUIntLE w buf v offset =
  if (length buf <? offset + w)%nat then Throw ERR_BUFFER_OUT_OF_BOUNDS
  else Ok (splice buf offset (le_bytes w v)).
Proof.
  intros [Hlo Hhi]. unfold writeUIntLE. rewrite Z.gtb_ltb.
  destruct (Z.ltb_spec (2 ^ (8 * Z.of_nat w) - 1) v); [lia|].
  destruct (Z.ltb_spec v 0); [lia|]. reflexivity.
Qed.

Lemma writeUIntLE_value_bad (w : nat) (buf : t) (v : Z) (offset : nat) :
  v < 0 \/ 2 ^ (8 * Z.of_nat w) - 1 < v ->
  writeUIntLE w buf v offset = Throw (ERR_OUT_OF_RANGE "value").
Proof.
  intros H. unfold writeUIntLE. rewrite Z.gtb_ltb.
  destruct (Z.ltb_spec (2 ^ (8 * Z.of_nat w) - 1) v); [reflexivity|].
  destruct (Z.ltb_spec v 0); [reflexivity|]. lia.
Qed.

Lemma skipn_repeat_zero (n m : nat) :
  skipn n (repeat 0 m) = repeat 0 (m - n).
Proof.
  revert m; induction n as [|n IH]; intros [|m]; simpl; auto.
Qed.

Lemma pattern_once (b : t) : b <> [] -> pattern b (length b) = b.
Proof.
  intros Hb. unfold pattern.
  destruct b as [|x b]; [congruence|].
  change (repeat (x :: b) (length (x :: b)))
    with ((x :: b) :: repeat (x :: b) (length b)).
  cbn [concat].
  rewrite firstn_app, firstn_all, Nat.sub_diag. cbn [firstn].
  now rewrite app_nil_r.
Qed.

Lemma hexDecode_length (len : nat) (s : string) :
  (length (hexDecode len s) <= len)%nat.
Proof.
  revert s; induction len as [|len IH]; intro s; simpl; [lia|].
  destruct s as [|a [|b rest]]; simpl; try lia.
  destruct (unhex a), (unhex b); simpl; try lia.
  specialize (IH rest). lia.
Qed.

End BufferFacts.

(** ** The frame encoder *)

Lemma serialBytes_length (this : WgCtl) : length (serialBytes this) = 4%nat.
Proof.
  unfold serialBytes. destruct (serial this) as [s|]; [|reflexivity].
  destruct (truthyNum s); reflexivity.
Qed.

Lemma header_length (this : WgCtl) (funcCode : Z) :
  length (header this funcCode) = 8%nat.
Proof.
  unfold header. rewrite length_app, serialBytes_length. reflexivity.
Qed.

Lemma packData_header (this : WgCtl) (funcCode : Z) (payload : option Payload) :
  isByte funcCode -> serialFits this ->
  packData this funcCode payload =
  writePayload (header this funcCode ++ repeat 0 56) payload.
Proof.
  intros Hfc Hs. unfold packData, Buffer.writeUInt8, Buffer.writeUInt32LE.
  change (Buffer.alloc 64) with (repeat 0 8 ++ repeat 0 56).
  generalize (repeat 0 56) as zs; intro zs.
  rewrite (BufferFacts.writeUIntLE_value_ok 1 _ 0x17) by (cbn; lia).
  cbn -[Z.modulo Z.div Z.pow].
  rewrite (BufferFacts.writeUIntLE_value_ok 1 _ funcCode)
    by (unfold isByte in Hfc; cbn; lia).
  cbn -[Z.modulo Z.div Z.pow].
  rewrite (Z.mod_small funcCode 256) by (unfold isByte in Hfc; lia).
  change (23 mod 256) with 23.
  match goal with
  | |- rbind ?m _ = _ =>
      assert (Hdata : m = Ok (header this funcCode ++ zs))
  end.
  { unfold header, serialBytes, serialFits in *.
    destruct (serial this) as [s|]; [|reflexivity].
    destruct (truthyNum s); [|reflexivity].
    rewrite BufferFacts.writeUIntLE_value_ok by (cbn; lia).
    reflexivity. }
  rewrite Hdata. reflexivity.
Qed.

(** Eight bytes in front of a list, spelled out. *)
Lemma eight_bytes (hd : list Z) :
  length hd = 8%nat ->
  exists a b c d e f g h, hd = [a; b; c; d; e; f; g; h].
Proof.
  intros Hl.
  destruct hd as [|a [|b [|c [|d [|e [|f [|g [|h [|i l]]]]]]]]];
    try discriminate Hl.
  eauto 10.
Qed.

Lemma writePayload_ok (hd : list Z) (payload : option Payload) :
  length hd = 8%nat -> payloadFits payload ->
  writePayload (hd ++ repeat 0 56) payload = Ok (hd ++ body payload).
Proof.
  intros Hl Hp.
  destruct (eight_bytes hd Hl) as (a & b & c & d & e & f & g & h & ->).
  assert (Hz : length (repeat 0 56) = 56%nat) by apply repeat_length.
  remember (repeat 0 56) as zs eqn:Ezs.
  unfold writePayload, body, pad56, Buffer.writeUInt8.
  destruct payload as [[buf|n|str]|]; cbn [truthyPayload payloadFits] in *.
  - unfold Buffer.fill. cbn [length app].
    destruct (Nat.ltb_spec (S (S (S (S (S (S (S (S (length zs)))))))))
                           (8 + length buf)); [lia|].
    destruct buf as [|x buf].
    + cbn. now rewrite Ezs.
    + cbn [Nat.leb length Nat.add].
      replace (S (S (S (S (S (S (S (S (S (length buf))))))))) - 8)%nat
        with (length (x :: buf)) by (cbn [length]; lia).
      rewrite BufferFacts.pattern_once by discriminate.
      unfold Buffer.splice. cbn [firstn Nat.add skipn app].
      rewrite Ezs, BufferFacts.skipn_repeat_zero. reflexivity.
  - unfold truthyNum. destruct (Z.eqb_spec n 0) as [->|Hn]; cbn [negb].
    + rewrite Ezs. reflexivity.
    + rewrite BufferFacts.writeUIntLE_value_ok
        by (unfold isByte in Hp; cbn; lia).
      cbn -[Z.modulo Z.div Z.pow skipn].
      rewrite (Z.mod_small n 256) by (unfold isByte in Hp; lia).
      cbn [skipn]. rewrite Ezs. reflexivity.
  - destruct str as [|ch str]; cbn [truthyStr].
    + rewrite Ezs. reflexivity.
    + unfold Buffer.write. cbn [length Nat.ltb Nat.leb Nat.sub app].
      rewrite Hz. unfold Buffer.splice. cbn [firstn Nat.add skipn app].
      rewrite Ezs, BufferFacts.skipn_repeat_zero. reflexivity.
  - rewrite Ezs. reflexivity.
Qed.

Lemma writePayload_oversize (hd : list Z) (b : Buffer.t) :
  length hd = 8%nat -> (56 < length b)%nat ->
  writePayload (hd ++ repeat 0 56) (Some (PBuffer b)) =
  Throw (ERR_OUT_OF_RANGE "end").
Proof.
  intros Hl Hb. unfold writePayload, Buffer.fill. cbn [truthyPayload].
  rewrite length_app, repeat_length, Hl.
  destruct (Nat.ltb_spec (8 + 56) (8 + length b)); [reflexivity|lia].
Qed.

Lemma writePayload_number_bad (data : Buffer.t) (n : Z) :
  n < 0 \/ 255 < n ->
  writePayload data (Some (PNumber n)) = Throw (ERR_OUT_OF_RANGE "value").
Proof.
  intros Hn. unfold writePayload, Buffer.writeUInt8. cbn [truthyPayload].
  unfold truthyNum. destruct (Z.eqb_spec n 0) as [->|_]; [lia|].
  cbn [negb]. apply BufferFacts.writeUIntLE_value_bad. cbn. lia.
Qed.

Lemma packData_ok (this : WgCtl) (funcCode : Z) (payload : option Payload) :
  isByte funcCode -> serialFits this -> payloadFits payload ->
  packData this funcCode payload = Ok (header this funcCode ++ body payload).
Proof.
  intros Hfc Hs Hp. rewrite packData_header by assumption.
  apply writePayload_ok; [apply header_length | assumption].
Qed.

Lemma body_length (payload : option Payload) :
  payloadFits payload -> length (body payload) = 56%nat.
Proof.
  intros Hp. unfold body, pad56.
  destruct payload as [[buf|n|str]|]; cbn [payloadFits] in Hp;
    rewrite ?length_app, ?repeat_length; cbn [length]; try lia.
  pose proof (BufferFacts.hexDecode_length 56 (stripSpace str)). lia.
Qed.

(** C3, as stated, fails: a 57-byte payload makes [fill] throw, and no
    buffer is produced. *)
Lemma packData_frame_shape_counterexample :
  packData exampleLocal 0x50 (Some (PBuffer (repeat 0 57))) =
    Throw (ERR_OUT_OF_RANGE "end") /\
  ~ (exists data,
        packData exampleLocal 0x50 (Some (PBuffer (repeat 0 57))) = Ok data /\
        length data = 64%nat /\
        nth_error data 0 = Some 0x17 /\
        nth_error data 1 = Some 0x50).
Proof.
  split; [reflexivity|].
  intros (data & H & _). vm_compute in H. discriminate H.
Qed.

(** C3 (amended): for every function code that is a byte, every
    configured serial that is an unsigned 32-bit number, and every payload
    that is absent, a byte, a hex string or a byte sequence of at most 56
    bytes, [packData] returns a buffer of exactly 64 bytes whose byte 0 is
    0x17 and whose byte 1 is the function code. *)
Theorem packData_frame_shape (this : WgCtl) (funcCode : Z)
        (payload : option Payload) :
  isByte funcCode -> serialFits this -> payloadFits payload ->
  exists data,
    packData this funcCode payload = Ok data /\
    length data = 64%nat /\
    nth_error data 0 = Some 0x17 /\
    nth_error data 1 = Some funcCode.
Proof.
  intros Hfc Hs Hp. exists (header this funcCode ++ body payload).
  split; [now apply packData_ok|].
  split; [|split; reflexivity].
  rewrite length_app, header_length, body_length by assumption. reflexivity.
Qed.

Lemma packData_frame_shape_witness :
  exists data,
    packData exampleLocal 0x40 (Some (PNumber 3)) = Ok data /\
    length data = 64%nat /\
    nth_error data 0 = Some 0x17 /\
    nth_error data 1 = Some 0x40.
Proof.
  apply (packData_frame_shape exampleLocal 0x40 (Some (PNumber 3))).
  - cbv [isByte]; lia.
  - cbv [serialFits exampleLocal serial]; lia.
  - cbv [payloadFits isByte]; lia.
Defined.



Lemma skipn_header (this : WgCtl) (funcCode : Z) (l : list Z) :
  skipn 8 (header this funcCode ++ l) = l.
Proof.
  destruct (eight_bytes _ (header_length this funcCode))
    as (a & b & c & d & e & f & g & h & ->).
  reflexivity.
Qed.

(** C4, as stated, fails: the encoder does not succeed for every payload
    length; a 60-byte payload is not truncated, [fill] throws. *)
Lemma packData_payload_counterexample :
  packData exampleKnown 0x5a (Some (PBuffer (repeat 255 60))) =
    Throw (ERR_OUT_OF_RANGE "end") /\
  ~ (forall b : Buffer.t,
        exists data, packData exampleKnown 0x5a (Some (PBuffer b)) = Ok data).
Proof.
  split; [reflexivity|].
  intros H. destruct (H (repeat 255 60)) as [data Hd].
  vm_compute in Hd. discriminate Hd.
Qed.

(** C4 (amended): with a function code that is a byte and a serial that is
    an unsigned 32-bit number, (1) a byte sequence of at most 56 bytes is
    copied verbatim into the frame from offset 8 on, followed by zeros;
    (2) a longer byte sequence is not truncated: the encoder throws a
    range error; (3) a single unsigned byte is written at offset 8;
    (4) a hex string has its whitespace stripped and is decoded into bytes
    from offset 8 on, up to the end of the frame; (5) without a payload
    offsets 8 and above stay zero. *)
Theorem packData_payload (this : WgCtl) (funcCode : Z) :
  isByte funcCode -> serialFits this ->
  (forall b : Buffer.t, (length b <= 56)%nat ->
     exists data,
       packData this funcCode (Some (PBuffer b)) = Ok data /\
       skipn 8 data = b ++ repeat 0 (56 - length b)) /\
  (forall b : Buffer.t, (56 < length b)%nat ->
     packData this funcCode (Some (PBuffer b)) =
     Throw (ERR_OUT_OF_RANGE "end")) /\
  (forall n : Z, isByte n ->
     exists data,
       packData this funcCode (Some (PNumber n)) = Ok data /\
       skipn 8 data = n :: repeat 0 55) /\
  (forall s : string,
     exists data,
       packData this funcCode (Some (PString s)) = Ok data /\
       skipn 8 data = pad56 (Buffer.hexDecode 56 (stripSpace s))) /\
  (exists data,
     packData this funcCode None = Ok data /\
     skipn 8 data = repeat 0 56).
Proof.
  intros Hfc Hs.
  assert (Hok : forall p, payloadFits p ->
            exists data, packData this funcCode p = Ok data /\
                         skipn 8 data = body p).
  { intros p Hp. eexists. split; [now apply packData_ok|].
    apply skipn_header. }
  repeat split.
  - intros b Hb. exact (Hok (Some (PBuffer b)) Hb).
  - intros b Hb. rewrite packData_header by assumption.
    apply writePayload_oversize; [apply header_length | exact Hb].
  - intros n Hn. exact (Hok (Some (PNumber n)) Hn).
  - intros s. exact (Hok (Some (PString s)) I).
  - exact (Hok None I).
Qed.

Lemma packData_payload_witness :
  exists data,
    packData exampleLocal 0x54 (Some (PString "55 aa aa 55")) = Ok data /\
    skipn 8 data = pad56 (Buffer.hexDecode 56 (stripSpace "55 aa aa 55")).
Proof.
  refine (proj1 (proj2 (proj2 (proj2
            (packData_payload exampleLocal 0x54 _ _)))) "55 aa aa 55"%string).
  - cbv [isByte]; lia.
  - cbv [serialFits exampleLocal serial]; lia.
Defined.

Lemma fromLE_le_bytes (s : Z) :
  0 <= s <= 4294967295 -> fromLE (Buffer.le_bytes 4 s) = s.
Proof.
  intros Hs. cbn -[Z.modulo Z.div Z.mul Z.add].
  Z.to_euclidean_division_equations. lia.
Qed.



(** ** Sending *)

Lemma sendData_eq (funcCode : Z) (payload : option Payload) (w : WgCtl) :
  sendData funcCode payload w =
  match packData w funcCode payload with
  | Ok data => transmit data w
  | Throw e => (Throw e, w)
  end.
Proof.
  unfold sendData, transmit, bind, get, lift.
  destruct (packData w funcCode payload); [|reflexivity].
  destruct (isSome (remoteSocket w)); reflexivity.
Qed.

Lemma portFits_true (w : WgCtl) :
  portFits w -> (1 <=? port w) && (port w <=? 65535) = true.
Proof.
  unfold portFits. intros [H1 H2].
  apply andb_true_intro. split; now apply Z.leb_le.
Qed.

Lemma portFits_false (w : WgCtl) :
  ~ portFits w -> (1 <=? port w) && (port w <=? 65535) = false.
Proof.
  unfold portFits. intros H.
  destruct (Z.leb_spec 1 (port w)), (Z.leb_spec (port w) 65535);
    try reflexivity; lia.
Qed.

(** The two outcomes of [localSendData] on a held UDP socket: the datagram
    handed over, or, with a port that [send] rejects, the exception, after
    the broadcast flag has been switched on if no ip is cached. *)
Lemma localSendData_cases (data : Buffer.t) (this : WgCtl) (s : UdpSocket) :
  localSocket this = Some s ->
  localSendData data this =
  if (1 <=? port this) && (port this <=? 65535)
  then (Ok tt,
        set_localSocket
          (Some (mkUdp (if truthyStr (ip this) then broadcast s else true)
                       (outbox s ++
                        [mkDatagram data (port this)
                           (if truthyStr (ip this) then ip this
                            else "255.255.255.255"%string)])
                       (onceMessage s)))
          this)
  else (Throw ERR_SOCKET_BAD_PORT,
        set_localSocket
          (Some (if truthyStr (ip this) then s else setBroadcast true s))
          this).
Proof.
  intros Hs. unfold localSendData, bind, get, modify, lift, send.
  rewrite Hs. cbn [dgPort].
  destruct ((1 <=? port this) && (port this <=? 65535));
    destruct (truthyStr (ip this)); reflexivity.
Qed.

Lemma transmit_returns (data : Buffer.t) (w : WgCtl) :
  transportReady w -> fst (transmit data w) = Ok tt.
Proof.
  intros Hw. unfold transmit. unfold transportReady in Hw.
  destruct (remoteSocket w) as [t|] eqn:Hr; cbn [isSome] in *.
  - unfold remoteSendData, bind, get, modify. now rewrite Hr.
  - destruct Hw as [Hw|Hw]; [discriminate Hw|].
    destruct (localSocket w) as [s|] eqn:Hl.
    + rewrite (localSendData_cases data w s Hl), (portFits_true w Hw).
      reflexivity.
    + unfold localSendData, bind, get, ret. now rewrite Hl.
Qed.

(** *** Frame conditions *)

Section FrameConditions.
Context {T : Type} (f : WgCtl -> T).

Lemma preserves_ret {A} (a : A) : preserves f (ret a).
Proof. intros w; reflexivity. Qed.

Lemma preserves_throw {A} (e : JsError) : preserves f (@throw A e).
Proof. intros w; reflexivity. Qed.

Lemma preserves_lift {A} (r : result A) : preserves f (lift r).
Proof. intros w; reflexivity. Qed.

Lemma preserves_get : preserves f get.
Proof. intros w; reflexivity. Qed.

Lemma preserves_bind {A B} (m : M A) (k : A -> M B) :
  preserves f m -> (forall a, preserves f (k a)) -> preserves f (bind m k).
Proof.
  intros Hm Hk w. unfold bind. specialize (Hm w).
  destruct (m w) as [[a|e] w']; cbn [snd] in *.
  - now rewrite Hk.
  - exact Hm.
Qed.

Lemma preserves_transmit (data : Buffer.t) :
  socketBlind f -> preserves f (transmit data).
Proof.
  intros [Hl Hr] w. unfold transmit.
  destruct (isSome (remoteSocket w)).
  - unfold remoteSendData, bind, get, modify, ret.
    destruct (remoteSocket w); cbn [snd]; auto.
  - destruct (localSocket w) as [s|] eqn:El.
    + rewrite (localSendData_cases data w s El).
      destruct (_ && _); cbn [snd]; auto.
    + unfold localSendData, bind, get, ret. now rewrite El.
Qed.

Lemma preserves_sendData (funcCode : Z) (payload : option Payload) :
  socketBlind f -> preserves f (sendData funcCode payload).
Proof.
  intros Hf w. rewrite sendData_eq.
  destruct (packData w funcCode payload); [|reflexivity].
  now apply preserves_transmit.
Qed.

End FrameConditions.

Lemma socketBlind_ip : socketBlind ip.
Proof. split; reflexivity. Qed.
Lemma socketBlind_port : socketBlind port.
Proof. split; reflexivity. Qed.
Lemma socketBlind_serial : socketBlind serial.
Proof. split; reflexivity. Qed.

Create HintDb frame.
#[local] Hint Resolve preserves_ret preserves_throw preserves_lift
  preserves_get preserves_sendData socketBlind_ip socketBlind_port
  socketBlind_serial : frame.

Ltac frame_step :=
  first [ solve [auto with frame]
        | apply preserves_bind; [|intro] ].

Section CommandFrames.
Variable ipToHex : string -> string.
Variable Date : Type.
Variable buildBcdDate : Date -> Payload.
Context {T : Type} (f : WgCtl -> T) (Hf : socketBlind f).

(** Every command except [setAddress] is a payload computation followed
    by one [sendData]. *)
Lemma preserves_run (c : Command Date) :
  isSetAddress c = false -> preserves f (run ipToHex buildBcdDate c).
Proof.
  destruct c; cbn [isSetAddress run]; intros Hc; try discriminate Hc;
    unfold search, openDoor, getDate, setDate, setAuth, getAuth, removeAuth,
      clearAuth, setServerAddress, getServerAddress;
    repeat frame_step.
Qed.

(** [setAddress] keeps whatever its final [this.ip = ""] does not
    touch. *)
Lemma preserves_setAddress (ip0 subnet gateway : string) :
  (forall v w, f (set_ip v w) = f w) ->
  preserves f (setAddress ipToHex ip0 subnet gateway).
Proof.
  intros Hip. unfold setAddress. repeat frame_step.
  intros w. cbn. apply Hip.
Qed.

End CommandFrames.

(** C10: every public command leaves the port and the serial as they
    were, and every public command other than [setAddress] leaves the
    cached ip as it was, whether the command returns or throws. *)
Theorem commands_keep_address (ipToHex : string -> string) (Date : Type)
        (buildBcdDate : Date -> Payload) (c : Command Date) (this : WgCtl) :
  port (snd (run ipToHex buildBcdDate c this)) = port this /\
  serial (snd (run ipToHex buildBcdDate c this)) = serial this /\
  (isSetAddress c = false ->
   ip (snd (run ipToHex buildBcdDate c this)) = ip this).
Proof.
  assert (Hother : forall T (f : WgCtl -> T),
             socketBlind f -> (forall v w, f (set_ip v w) = f w) ->
             f (snd (run ipToHex buildBcdDate c this)) = f this).
  { intros T f Hf Hip. destruct (isSetAddress c) eqn:Hc.
    - destruct c; try discriminate Hc. cbn [run].
      now apply preserves_setAddress.
    - now apply preserves_run. }
  split; [|split].
  - apply Hother; [apply socketBlind_port | reflexivity].
  - apply Hother; [apply socketBlind_serial | reflexivity].
  - intros Hc. now apply preserves_run; [apply socketBlind_ip|].
Qed.

Lemma commands_keep_address_witness :
  ip (snd (run (fun s => s) (fun _ : unit => PNumber 0)
               (CSetAuth 305419896 3) exampleKnown)) = "10.0.0.42"%string.
Proof.
  exact (proj2 (proj2 (commands_keep_address (fun s => s) unit
                         (fun _ => PNumber 0) (CSetAuth 305419896 3)
                         exampleKnown)) eq_refl).
Defined.

(** ** The Local transport *)

Lemma localSendData_eq (data : Buffer.t) (this : WgCtl) (s : UdpSocket) :
  localSocket this = Some s -> portFits this ->
  localSendData data this =
  (Ok tt,
   set_localSocket
     (Some (mkUdp (if truthyStr (ip this) then broadcast s else true)
                  (outbox s ++
                   [mkDatagram data (port this)
                      (if truthyStr (ip this) then ip this
                       else "255.255.255.255"%string)])
                  (onceMessage s)))
     this).
Proof.
  intros Hs Hp.
  now rewrite (localSendData_cases data this s Hs), (portFits_true this Hp).
Qed.

(** C7: a frame handed to the Local transport with a port that the socket
    accepts (1..65535) is sent, on that port, to 255.255.255.255 with
    broadcast mode switched on when no device ip is cached, and to the
    cached ip, with the broadcast flag left alone, when one is.  With any
    other port [send] throws and no frame is sent. *)
Theorem localSendData_target (data : Buffer.t) (this : WgCtl)
        (s : UdpSocket) :
  localSocket this = Some s ->
  (portFits this ->
   fst (localSendData data this) = Ok tt /\
   (ip this = ""%string ->
    localSocket (snd (localSendData data this)) =
    Some (mkUdp true
                (outbox s ++ [mkDatagram data (port this) "255.255.255.255"])
                (onceMessage s))) /\
   (ip this <> ""%string ->
    localSocket (snd (localSendData data this)) =
    Some (mkUdp (broadcast s)
                (outbox s ++ [mkDatagram data (port this) (ip this)])
                (onceMessage s)))) /\
  (~ portFits this ->
   fst (localSendData data this) = Throw ERR_SOCKET_BAD_PORT /\
   exists s', localSocket (snd (localSendData data this)) = Some s' /\
              outbox s' = outbox s).
Proof.
  intros Hs. split.
  - intros Hp. rewrite (localSendData_eq data this s Hs Hp).
    split; [reflexivity|].
    split; intros Hip; cbn [snd set_localSocket localSocket].
    + rewrite Hip. reflexivity.
    + destruct (ip this) as [|ch rest]; [congruence|]. reflexivity.
  - intros Hp.
    rewrite (localSendData_cases data this s Hs), (portFits_false this Hp).
    split; [reflexivity|]. cbn [snd set_localSocket localSocket].
    eexists. split; [reflexivity|].
    destruct (truthyStr (ip this)); reflexivity.
Qed.

Lemma localSendData_target_witness :
  localSocket (snd (localSendData [0x17; 0x94] exampleLocal)) =
    Some (mkUdp true [mkDatagram [0x17; 0x94] 60000 "255.255.255.255"] false)
  /\
  localSocket (snd (localSendData [0x17; 0x40] exampleKnown)) =
    Some (mkUdp false [mkDatagram [0x17; 0x40] 60000 "10.0.0.42"] false)
  /\
  fst (localSendData [0x17; 0x40] (set_port 0 exampleKnown)) =
    Throw ERR_SOCKET_BAD_PORT.
Proof.
  split; [|split].
  - refine (proj1 (proj2 (proj1 (localSendData_target [0x17; 0x94]
                                   exampleLocal (mkUdp false [] false)
                                   eq_refl) _)) eq_refl).
    cbv [portFits exampleLocal port]; lia.
  - refine (proj2 (proj2 (proj1 (localSendData_target [0x17; 0x40]
                                   exampleKnown (mkUdp false [] false)
                                   eq_refl) _)) _).
    + cbv [portFits exampleKnown port]; lia.
    + discriminate.
  - refine (proj1 (proj2 (localSendData_target [0x17; 0x40]
                            (set_port 0 exampleKnown) (mkUdp false [] false)
                            eq_refl) _)).
    cbv [portFits exampleKnown port set_port]; lia.
Defined.

Lemma sendData_ok (funcCode : Z) (payload : option Payload) (w : WgCtl) :
  isByte funcCode -> serialFits w -> payloadFits payload ->
  sendData funcCode payload w =
  transmit (header w funcCode ++ body payload) w.
Proof.
  intros Hfc Hs Hp. rewrite sendData_eq, packData_ok by assumption.
  reflexivity.
Qed.

Lemma sendData_returns (funcCode : Z) (payload : option Payload) (w : WgCtl) :
  isByte funcCode -> serialFits w -> payloadFits payload ->
  transportReady w ->
  fst (sendData funcCode payload w) = Ok tt.
Proof.
  intros Hfc Hs Hp Hw. rewrite sendData_ok by assumption.
  now apply transmit_returns.
Qed.

Lemma splice_length (buf : Buffer.t) (offset : nat) (bs : list Z) :
  (offset + length bs <= length buf)%nat ->
  length (Buffer.splice buf offset bs) = length buf.
Proof.
  intros H. unfold Buffer.splice.
  rewrite !length_app, length_firstn, length_skipn. lia.
Qed.

(** A hex write inside the buffer succeeds and keeps the length. *)
Lemma write_ok (buf : Buffer.t) (str : string) (offset : nat) :
  (offset <= length buf)%nat ->
  exists buf', Buffer.write buf str offset = Ok buf' /\
               length buf' = length buf.
Proof.
  intros H. unfold Buffer.write.
  destruct (Nat.ltb_spec (length buf) offset); [lia|].
  eexists. split; [reflexivity|]. apply splice_length.
  pose proof (BufferFacts.hexDecode_length (length buf - offset) str). lia.
Qed.

Section AddressCommands.
Variable ipToHex : string -> string.

Lemma setAddressPayload_ok (ip0 subnet gateway : string) :
  exists payload,
    setAddressPayload ipToHex ip0 subnet gateway = Ok payload /\
    length payload = 16%nat.
Proof.
  unfold setAddressPayload.
  destruct (write_ok (Buffer.alloc 16) (ipToHex ip0) 0) as (p1 & -> & H1);
    [cbn; lia|].
  cbn [rbind].
  destruct (write_ok p1 (ipToHex subnet) 4) as (p2 & -> & H2);
    [rewrite H1; cbn; lia|].
  cbn [rbind].
  destruct (write_ok p2 (ipToHex gateway) 8) as (p3 & -> & H3);
    [rewrite H2, H1; cbn; lia|].
  cbn [rbind].
  destruct (write_ok p3 "55aaaa55" 12) as (p4 & -> & H4);
    [rewrite H3, H2, H1; cbn; lia|].
  exists p4. split; [reflexivity|].
  rewrite H4, H3, H2, H1. reflexivity.
Qed.

Lemma setAddress_eq (ip0 subnet gateway : string) (this : WgCtl) :
  serialFits this -> transportReady this ->
  exists payload,
    setAddressPayload ipToHex ip0 subnet gateway = Ok payload /\
    setAddress ipToHex ip0 subnet gateway this =
    (Ok tt,
     set_ip "" (snd (transmit (header this 0x96 ++ pad56 payload) this))).
Proof.
  intros Hs Hw.
  destruct (setAddressPayload_ok ip0 subnet gateway) as (payload & Hp & Hl).
  exists payload. split; [exact Hp|].
  unfold setAddress, bind, lift, modify. rewrite Hp.
  rewrite (sendData_ok 0x96 (Some (PBuffer payload)) this)
    by (cbv [isByte payloadFits]; try assumption; lia).
  cbn [body].
  pose proof (transmit_returns (header this 0x96 ++ pad56 payload) this Hw)
    as Hr.
  destruct (transmit (header this 0x96 ++ pad56 payload) this) as [r w'].
  cbn [fst snd] in *. rewrite Hr. reflexivity.
Qed.

End AddressCommands.

(** C8: for every ip, subnet and gateway argument, [setAddress] on an
    instance whose port the socket accepts (1..65535) returns with the
    cached device ip cleared, so that the next frame handed to the Local
    transport goes to the broadcast address. *)
Theorem setAddress_clears_ip (ipToHex : string -> string)
        (ip0 subnet gateway : string) (this : WgCtl) :
  serialFits this -> portFits this ->
  fst (setAddress ipToHex ip0 subnet gateway this) = Ok tt /\
  ip (snd (setAddress ipToHex ip0 subnet gateway this)) = ""%string /\
  (forall s data,
     localSocket (snd (setAddress ipToHex ip0 subnet gateway this)) = Some s ->
     localSocket
       (snd (localSendData data
               (snd (setAddress ipToHex ip0 subnet gateway this)))) =
     Some (mkUdp true
                 (outbox s ++ [mkDatagram data (port this) "255.255.255.255"])
                 (onceMessage s))).
Proof.
  intros Hs Hport.
  destruct (setAddress_eq ipToHex ip0 subnet gateway this Hs
              (or_intror Hport)) as (payload & _ & Heq).
  rewrite Heq. cbn [fst snd]. split; [reflexivity|]. split; [reflexivity|].
  intros s data Hsock.
  assert (Hp : port (set_ip "" (snd (transmit (header this 0x96
                                                ++ pad56 payload) this)))
               = port this).
  { cbn [port set_ip].
    apply (preserves_transmit port _ socketBlind_port this). }
  rewrite (localSendData_eq data _ s Hsock)
    by (unfold portFits; rewrite Hp; exact Hport).
  cbn [snd set_localSocket localSocket]. rewrite Hp. reflexivity.
Qed.

Lemma setAddress_clears_ip_witness :
  ip (snd (setAddress (fun _ => "c0a80164"%string) "192.168.1.100"
             "255.255.255.0" "192.168.1.1" exampleKnown)) = ""%string.
Proof.
  refine (proj1 (proj2 (setAddress_clears_ip (fun _ => "c0a80164"%string)
                          "192.168.1.100" "255.255.255.0" "192.168.1.1"
                          exampleKnown _ _))).
  - cbv [serialFits exampleKnown serial]; lia.
  - cbv [portFits exampleKnown port]; lia.
Defined.

(** ** Card authorisations *)

Lemma setAuthPayload_eq (cardNo door : Z) :
  0 <= cardNo <= 4294967295 ->
  setAuthPayload cardNo door =
  Ok (Buffer.le_bytes 4 cardNo
      ++ [0x20; 0x19; 0x01; 0x01; 0x20; 0x29; 0x12; 0x31]
      ++ doorFlags door).
Proof.
  intros Hc. unfold setAuthPayload, Buffer.writeUInt32LE, Buffer.writeUInt8.
  rewrite BufferFacts.writeUIntLE_value_ok by (cbn; lia).
  cbn -[Z.modulo Z.div Z.pow Z.eqb].
  unfold Buffer.writeUIntLE, doorFlags.
  destruct (door =? 1), (door =? 2), (door =? 3), (door =? 4); reflexivity.
Qed.

Lemma setAuthPayload_bad (cardNo door : Z) :
  cardNo < 0 \/ 4294967295 < cardNo ->
  setAuthPayload cardNo door = Throw (ERR_OUT_OF_RANGE "value").
Proof.
  intros Hc. unfold setAuthPayload, Buffer.writeUInt32LE.
  rewrite BufferFacts.writeUIntLE_value_bad by (cbn; lia). reflexivity.
Qed.

(** C6: for every card number (an unsigned 32-bit number) and every door
    value, the 16-byte payload that [setAuth] builds and sends has, at
    offsets 12..15, a single 1 at the place of the door when the door is
    1, 2, 3 or 4, with 0 at the other three, and four zeros for any other
    door value. *)
Theorem setAuth_door_flags (cardNo door : Z) :
  0 <= cardNo <= 4294967295 ->
  exists payload,
    setAuthPayload cardNo door = Ok payload /\
    length payload = 16%nat /\
    (forall this, setAuth cardNo door this =
                  sendData 0x50 (Some (PBuffer payload)) this) /\
    (door = 1 -> Buffer.slice payload 12 4 = [1; 0; 0; 0]) /\
    (door = 2 -> Buffer.slice payload 12 4 = [0; 1; 0; 0]) /\
    (door = 3 -> Buffer.slice payload 12 4 = [0; 0; 1; 0]) /\
    (door = 4 -> Buffer.slice payload 12 4 = [0; 0; 0; 1]) /\
    (door <> 1 /\ door <> 2 /\ door <> 3 /\ door <> 4 ->
     Buffer.slice payload 12 4 = [0; 0; 0; 0]).
Proof.
  intros Hc. eexists. split; [now apply setAuthPayload_eq|].
  split; [reflexivity|]. split.
  { intros this. unfold setAuth, bind, lift.
    now rewrite setAuthPayload_eq. }
  assert (Hsl : Buffer.slice
                  (Buffer.le_bytes 4 cardNo
                   ++ [0x20; 0x19; 0x01; 0x01; 0x20; 0x29; 0x12; 0x31]
                   ++ doorFlags door) 12 4 = doorFlags door) by reflexivity.
  rewrite Hsl. unfold doorFlags.
  repeat split.
  - intros ->; reflexivity.
  - intros ->; reflexivity.
  - intros ->; reflexivity.
  - intros ->; reflexivity.
  - intros (H1 & H2 & H3 & H4).
    destruct (Z.eqb_spec door 1); [contradiction|].
    destruct (Z.eqb_spec door 2); [contradiction|].
    destruct (Z.eqb_spec door 3); [contradiction|].
    destruct (Z.eqb_spec door 4); [contradiction|].
    reflexivity.
Qed.

Lemma setAuth_door_flags_witness :
  exists payload,
    setAuthPayload 305419896 3 = Ok payload /\
    Buffer.slice payload 12 4 = [0; 0; 1; 0].
Proof.
  destruct (setAuth_door_flags 305419896 3) as (payload & Hp & _ & _ & H).
  - lia.
  - exists payload. split; [exact Hp|].
    exact (proj1 (proj2 (proj2 H)) eq_refl).
Defined.

(** ** Numeric arguments *)

(** C5, as stated, fails: a door number of 256 is not wrapped to 0 and a
    card number of 2^32 is not truncated; the buffer write throws a range
    error, which reaches the caller, and nothing is sent. *)
Lemma command_numeric_args_counterexample :
  openDoor 256 exampleKnown =
    (Throw (ERR_OUT_OF_RANGE "value"), exampleKnown) /\
  setAuth 4294967296 1 exampleKnown =
    (Throw (ERR_OUT_OF_RANGE "value"), exampleKnown) /\
  ~ (forall door, exists this', openDoor door exampleKnown = (Ok tt, this')).
Proof.
  split; [reflexivity|]. split; [reflexivity|].
  intros H. destruct (H 256) as [this' H']. vm_compute in H'. discriminate H'.
Qed.

Lemma writeUIntLE_ok_length (w : nat) (buf : Buffer.t) (v : Z)
      (offset : nat) :
  0 <= v <= 2 ^ (8 * Z.of_nat w) - 1 ->
  (offset + w <= length buf)%nat ->
  exists buf', Buffer.writeUIntLE w buf v offset = Ok buf' /\
               length buf' = length buf.
Proof.
  intros Hv Hl. rewrite BufferFacts.writeUIntLE_value_ok by assumption.
  destruct (Nat.ltb_spec (length buf) (offset + w)); [lia|].
  eexists. split; [reflexivity|].
  apply splice_length. now rewrite BufferFacts.le_bytes_length.
Qed.

Lemma cardCommand_bad (funcCode cardNo : Z) (this : WgCtl) :
  cardNo < 0 \/ 4294967295 < cardNo ->
  bind (lift (Buffer.writeUInt32LE (Buffer.alloc 56) cardNo 0))
       (fun payload => sendData funcCode (Some (PBuffer payload))) this =
  (Throw (ERR_OUT_OF_RANGE "value"), this).
Proof.
  intros Hc. unfold bind, lift, Buffer.writeUInt32LE.
  rewrite BufferFacts.writeUIntLE_value_bad by (cbn; lia). reflexivity.
Qed.

Section ServerAddress.
Variable ipToHex : string -> string.

Lemma setServerAddressPayload_ok (ip0 : string) (port0 interval : Z) :
  0 <= port0 <= 65535 -> isByte interval ->
  exists payload,
    setServerAddressPayload ipToHex ip0 port0 interval = Ok payload /\
    length payload = 7%nat.
Proof.
  intros Hp Hi. unfold setServerAddressPayload, Buffer.writeUInt16LE,
    Buffer.writeUInt8.
  destruct (write_ok (Buffer.alloc 7) (ipToHex ip0) 0) as (p1 & -> & H1);
    [cbn; lia|].
  cbn [rbind].
  destruct (writeUIntLE_ok_length 2 p1 port0 4) as (p2 & -> & H2);
    [cbn; lia | rewrite H1; cbn; lia |].
  cbn [rbind].
  destruct (writeUIntLE_ok_length 1 p2 interval 6) as (p3 & -> & H3);
    [unfold isByte in Hi; cbn; lia | rewrite H2, H1; cbn; lia |].
  exists p3. split; [reflexivity|]. now rewrite H3, H2, H1.
Qed.

Lemma setServerAddressPayload_bad (ip0 : string) (port0 interval : Z) :
  (port0 < 0 \/ 65535 < port0) \/ (interval < 0 \/ 255 < interval) ->
  setServerAddressPayload ipToHex ip0 port0 interval =
  Throw (ERR_OUT_OF_RANGE "value").
Proof.
  intros H. unfold setServerAddressPayload, Buffer.writeUInt16LE,
    Buffer.writeUInt8.
  destruct (write_ok (Buffer.alloc 7) (ipToHex ip0) 0) as (p1 & -> & H1);
    [cbn; lia|].
  cbn [rbind].
  assert (Hcases : (port0 < 0 \/ 65535 < port0) \/ 0 <= port0 <= 65535)
    by lia.
  destruct Hcases as [Hp|Hp].
  - rewrite BufferFacts.writeUIntLE_value_bad by (cbn; lia). reflexivity.
  - destruct (writeUIntLE_ok_length 2 p1 port0 4) as (p2 & -> & H2);
      [cbn; lia | rewrite H1; cbn; lia |].
    cbn [rbind].
    rewrite BufferFacts.writeUIntLE_value_bad by (cbn; lia). reflexivity.
Qed.

End ServerAddress.

Lemma cardPayload_eq (cardNo : Z) :
  0 <= cardNo <= 4294967295 ->
  Buffer.writeUInt32LE (Buffer.alloc 56) cardNo 0 =
  Ok (Buffer.le_bytes 4 cardNo ++ repeat 0 52).
Proof.
  intros Hc. unfold Buffer.writeUInt32LE.
  rewrite BufferFacts.writeUIntLE_value_ok by (cbn; lia). reflexivity.
Qed.

Lemma setServerAddressPayload_eq (ipToHex : string -> string) (ip0 : string)
      (port0 interval : Z) :
  0 <= port0 <= 65535 -> isByte interval ->
  setServerAddressPayload ipToHex ip0 port0 interval =
  Ok (firstn 4 (Buffer.hexDecode 7 (ipToHex ip0) ++ repeat 0 4)
      ++ [port0 mod 256; port0 / 256; interval]).
Proof.
  intros Hp Hi. unfold isByte in Hi.
  unfold setServerAddressPayload, Buffer.write, Buffer.writeUInt16LE,
    Buffer.writeUInt8.
  cbn [Buffer.alloc repeat length Nat.ltb Nat.leb Nat.sub].
  pose proof (BufferFacts.hexDecode_length 7 (ipToHex ip0)) as Hlen.
  destruct (Buffer.hexDecode 7 (ipToHex ip0))
    as [|x0 [|x1 [|x2 [|x3 [|x4 [|x5 [|x6 [|x7 h]]]]]]]];
    cbn [length] in Hlen; try lia;
    cbn [rbind Buffer.splice firstn skipn app length Nat.add];
    rewrite (BufferFacts.writeUIntLE_value_ok 2) by (cbn; lia);
    cbn [rbind Buffer.splice firstn skipn app length Nat.add Nat.ltb Nat.leb
         Buffer.le_bytes];
    rewrite (BufferFacts.writeUIntLE_value_ok 1) by (cbn; lia);
    cbn [rbind Buffer.splice firstn skipn app length Nat.add Nat.ltb Nat.leb
         Buffer.le_bytes];
    rewrite (Z.mod_small (port0 / 256) 256)
      by (split; [apply Z.div_pos; lia
                 | apply Z.div_lt_upper_bound; lia]);
    rewrite (Z.mod_small interval 256) by lia;
    reflexivity.
Qed.

Lemma setAuth_sends (cardNo door : Z) (this : WgCtl) :
  serialFits this -> 0 <= cardNo <= 4294967295 ->
  setAuth cardNo door this =
  transmit (header this 0x50
            ++ Buffer.le_bytes 4 cardNo
            ++ [0x20; 0x19; 0x01; 0x01; 0x20; 0x29; 0x12; 0x31]
            ++ doorFlags door ++ repeat 0 40) this.
Proof.
  intros Hs Hc. unfold setAuth, bind, lift.
  rewrite setAuthPayload_eq by assumption.
  rewrite sendData_ok; try assumption.
  - reflexivity.
  - cbv [isByte]; lia.
  - cbn [payloadFits]. rewrite !length_app, BufferFacts.le_bytes_length.
    cbn; lia.
Qed.

Lemma cardCommand_sends (funcCode cardNo : Z) (this : WgCtl) :
  isByte funcCode -> serialFits this -> 0 <= cardNo <= 4294967295 ->
  bind (lift (Buffer.writeUInt32LE (Buffer.alloc 56) cardNo 0))
       (fun payload => sendData funcCode (Some (PBuffer payload))) this =
  transmit (header this funcCode ++ Buffer.le_bytes 4 cardNo ++ repeat 0 52)
           this.
Proof.
  intros Hfc Hs Hc. unfold bind, lift. rewrite cardPayload_eq by assumption.
  rewrite sendData_ok; try assumption.
  - cbn [body]. unfold pad56.
    rewrite length_app, BufferFacts.le_bytes_length, repeat_length.
    cbn [Nat.add Nat.sub repeat]. now rewrite app_nil_r.
  - cbn [payloadFits]. rewrite length_app, BufferFacts.le_bytes_length.
    cbn; lia.
Qed.

Lemma setServerAddress_sends (ipToHex : string -> string) (ip0 : string)
      (port0 interval : Z) (this : WgCtl) :
  serialFits this -> 0 <= port0 <= 65535 -> isByte interval ->
  setServerAddress ipToHex ip0 port0 (Some interval) this =
  transmit (header this 0x90
            ++ firstn 4 (Buffer.hexDecode 7 (ipToHex ip0) ++ repeat 0 4)
            ++ [port0 mod 256; port0 / 256; interval] ++ repeat 0 49) this.
Proof.
  intros Hs Hp Hi. unfold setServerAddress, bind, lift.
  rewrite setServerAddressPayload_eq by assumption.
  assert (Hl : length (firstn 4 (Buffer.hexDecode 7 (ipToHex ip0)
                                 ++ repeat 0 4)) = 4%nat).
  { rewrite length_firstn, length_app, repeat_length. lia. }
  rewrite sendData_ok; try assumption.
  - cbn [body]. unfold pad56. rewrite length_app, Hl.
    cbn [length Nat.add Nat.sub]. now rewrite <- !app_assoc.
  - cbv [isByte]; lia.
  - cbn [payloadFits]. rewrite length_app, Hl. cbn; lia.
Qed.

(** C5 (amended): the command methods validate nothing themselves.  A
    numeric argument that fits the field it is written to is written
    unchanged into the frame handed to the transport: a door number in
    0..255 given to [openDoor] at offset 8; a card number in 0..2^32-1
    given to [setAuth] (with any door value), [getAuth] or [removeAuth],
    little-endian at offsets 8..11; a port in 0..65535 and an interval in
    0..255 given to [setServerAddress], at offsets 12..13 and 14.  A value
    outside that range is neither truncated nor wrapped: the buffer write
    throws a range error to the caller, nothing is sent and the instance
    is left as it was.  With a port of the instance that the socket
    accepts, the transport raises nothing either. *)
Theorem command_numeric_args (ipToHex : string -> string) (this : WgCtl) :
  serialFits this ->
  (forall door, isByte door ->
     exists data,
       packData this 0x40 (Some (PNumber door)) = Ok data /\
       nth_error data 8 = Some door /\
       openDoor door this = transmit data this) /\
  (forall door, door < 0 \/ 255 < door ->
     openDoor door this = (Throw (ERR_OUT_OF_RANGE "value"), this)) /\
  (forall cardNo door, 0 <= cardNo <= 4294967295 ->
     setAuth cardNo door this =
       transmit (header this 0x50
                 ++ Buffer.le_bytes 4 cardNo
                 ++ [0x20; 0x19; 0x01; 0x01; 0x20; 0x29; 0x12; 0x31]
                 ++ doorFlags door ++ repeat 0 40) this /\
     getAuth cardNo this =
       transmit (header this 0x5a ++ Buffer.le_bytes 4 cardNo
                 ++ repeat 0 52) this /\
     removeAuth cardNo this =
       transmit (header this 0x52 ++ Buffer.le_bytes 4 cardNo
                 ++ repeat 0 52) this /\
     fromLE (Buffer.le_bytes 4 cardNo) = cardNo) /\
  (forall cardNo door, cardNo < 0 \/ 4294967295 < cardNo ->
     setAuth cardNo door this = (Throw (ERR_OUT_OF_RANGE "value"), this) /\
     getAuth cardNo this = (Throw (ERR_OUT_OF_RANGE "value"), this) /\
     removeAuth cardNo this = (Throw (ERR_OUT_OF_RANGE "value"), this)) /\
  (forall ip0 port0 interval, 0 <= port0 <= 65535 -> isByte interval ->
     setServerAddress ipToHex ip0 port0 (Some interval) this =
       transmit (header this 0x90
                 ++ firstn 4 (Buffer.hexDecode 7 (ipToHex ip0) ++ repeat 0 4)
                 ++ [port0 mod 256; port0 / 256; interval] ++ repeat 0 49)
                this /\
     fromLE [port0 mod 256; port0 / 256] = port0) /\
  (forall ip0 port0 interval,
     (port0 < 0 \/ 65535 < port0) \/ (interval < 0 \/ 255 < interval) ->
     setServerAddress ipToHex ip0 port0 (Some interval) this =
     (Throw (ERR_OUT_OF_RANGE "value"), this)) /\
  (forall data, portFits this -> fst (transmit data this) = Ok tt).
Proof.
  intros Hs.
  assert (H40 : isByte 0x40) by (cbv [isByte]; lia).
  assert (H5a : isByte 0x5a) by (cbv [isByte]; lia).
  assert (H52 : isByte 0x52) by (cbv [isByte]; lia).
  split; [|split; [|split; [|split; [|split; [|split]]]]].
  - intros door Hd. exists (header this 0x40 ++ body (Some (PNumber door))).
    split; [now apply packData_ok|].
    split.
    { destruct (eight_bytes _ (header_length this 0x40))
        as (a & b & c & d & e & f & g & h & ->). reflexivity. }
    unfold openDoor. now apply sendData_ok.
  - intros door Hd. unfold openDoor.
    rewrite sendData_eq, packData_header by assumption.
    now rewrite writePayload_number_bad.
  - intros cardNo door Hc. split; [|split; [|split]].
    + now apply setAuth_sends.
    + now apply cardCommand_sends.
    + now apply cardCommand_sends.
    + now apply fromLE_le_bytes.
  - intros cardNo door Hc. split; [|split].
    + unfold setAuth, bind, lift. now rewrite setAuthPayload_bad.
    + now apply cardCommand_bad.
    + now apply cardCommand_bad.
  - intros ip0 port0 interval Hp Hi. split.
    + now apply setServerAddress_sends.
    + cbn -[Z.modulo Z.div Z.mul Z.add].
      Z.to_euclidean_division_equations. lia.
  - intros ip0 port0 interval H. unfold setServerAddress, bind, lift.
    now rewrite setServerAddressPayload_bad.
  - intros data Hp. apply transmit_returns. now right.
Qed.

Lemma command_numeric_args_witness :
  (exists data,
     packData exampleKnown 0x40 (Some (PNumber 2)) = Ok data /\
     nth_error data 8 = Some 2 /\
     openDoor 2 exampleKnown = transmit data exampleKnown) /\
  fromLE (Buffer.le_bytes 4 305419896) = 305419896 /\
  fromLE [9000 mod 256; 9000 / 256] = 9000.
Proof.
  assert (Hs : serialFits exampleKnown)
    by (cbv [serialFits exampleKnown serial]; lia).
  split; [|split].
  - refine (proj1 (command_numeric_args (fun s => s) exampleKnown Hs) 2 _).
    cbv [isByte]; lia.
  - refine (proj2 (proj2 (proj2
              (proj1 (proj2 (proj2
                 (command_numeric_args (fun s => s) exampleKnown Hs)))
                 305419896 1 _)))).
    lia.
  - refine (proj2 (proj1 (proj2 (proj2 (proj2 (proj2
              (command_numeric_args (fun s => s) exampleKnown Hs)))))
              "10.0.0.5"%string 9000 0 _ _)).
    + lia.
    + cbv [isByte]; lia.
Defined.

(** ** Construction *)

(** C1 does not hold of the code: with a TCP socket the guard reads the
    fields [this.serverIp] and [this.serverPort], which that branch never
    assigns, instead of the arguments; so the constructor returns an
    instance, with the callback arguments dropped, for every choice of
    arguments, among them a callback ip and port. *)
Theorem constructor_remote_accepts_callback :
  constructor (Tcp (mkTcp [])) (Some 1001) (Some "10.0.0.5"%string)
              (Some 9000) None None = Ok exampleRemote /\
  (forall s serial0 serverIp0 serverPort0 ip0 port0,
     exists this,
       constructor (Tcp s) serial0 serverIp0 serverPort0 ip0 port0 = Ok this /\
       serverIp this = None /\ serverPort this = None /\
       remoteSocket this = Some s).
Proof.
  split; [reflexivity|].
  intros s serial0 serverIp0 serverPort0 ip0 port0.
  unfold constructor. cbn.
  rewrite andb_false_r. cbn. eexists. repeat split.
Qed.

(** The Local sibling stores the callback target and starts discovery:
    one [search] frame is broadcast and the flow waits for a reply. *)
Example constructor_local_starts_discovery :
  constructor (Udp (mkUdp false [] false)) (Some 1001)
              (Some "10.0.0.5"%string) (Some 9000) None None =
  Ok (mkWgCtl "" 60000 (Some 1001)
        (Some (mkUdp true
                 [mkDatagram (header exampleLocal 0x94 ++ body None) 60000
                             "255.255.255.255"]
                 true))
        None Pending (Some "10.0.0.5"%string) (Some 9000) true).
Proof. reflexivity. Qed.

(** ** Discovery *)

(** Projections of updated instances. *)
Ltac fields :=
  cbn [ip port serial localSocket remoteSocket detected serverIp serverPort
       awaiting set_ip set_port set_serial set_localSocket set_remoteSocket
       set_detected set_serverIp set_serverPort set_awaiting].

Section Discovery.
Variable ipToHex : string -> string.
Variable parseData : Buffer.t -> result Reply.

Lemma preserves_setServerAddress {T} (f : WgCtl -> T) (sip : string)
      (sport : Z) (interval : option Z) :
  socketBlind f -> preserves f (setServerAddress ipToHex sip sport interval).
Proof.
  intros Hf. unfold setServerAddress. repeat frame_step.
Qed.

Lemma receive_mismatch (this : WgCtl) (s : UdpSocket) (sip : string)
      (sport : Z) (msg : Buffer.t) (reply : Reply) :
  Searching this s sip sport -> parseData msg = Ok reply ->
  serialDiffers (replySerial reply) (serial this) = true ->
  receive ipToHex parseData msg this =
  (Ok tt, set_localSocket (Some (removeListener s)) this).
Proof.
  intros (Hsock & Hon & Hdet & Haw & _ & _) Hparse Hdiff.
  unfold receive, emitMessage, onMessage, resumeDetect, bind, get, modify,
    lift, ret.
  rewrite Hsock, Hon. fields. rewrite Hparse, Hdiff.
  fields. rewrite Haw, Hdet. reflexivity.
Qed.

Lemma receive_match (this : WgCtl) (s : UdpSocket) (sip : string)
      (sport : Z) (msg : Buffer.t) (reply : Reply) :
  Searching this s sip sport -> parseData msg = Ok reply ->
  serial this = Some (replySerial reply) ->
  receive ipToHex parseData msg this =
  setServerAddress ipToHex sip sport None
    (accepted (if (replyIp reply =? "192.168.0.0")%string then ""%string
               else replyIp reply) this s).
Proof.
  intros (Hsock & Hon & Hdet & Haw & Hsip & Hsport) Hparse Hser.
  unfold receive, emitMessage, onMessage, resumeDetect, resolve, bind, get,
    modify, lift, ret, accepted.
  rewrite Hsock, Hon. fields. rewrite Hparse, Hser.
  unfold serialDiffers. rewrite Z.eqb_refl. cbn [negb].
  destruct (replyIp reply =? "192.168.0.0")%string;
    fields; rewrite Hdet; fields; rewrite Haw, Hsip, Hsport; reflexivity.
Qed.

End Discovery.

(** X19: the first datagram that reaches the listener of the detect flow,
    when the decoder accepts it.  If its serial differs from the
    instance's, the cached ip is unchanged, nothing is sent, and the flow
    stays suspended on its pending promise.  If the serial matches and the
    reply's ip is "192.168.0.0", the cached ip is cleared; if the serial
    matches and the ip is anything else, the cached ip becomes that value;
    in both cases [setServerAddress] is called with the configured
    callback target, and on a Local instance with a fitting serial, a port
    that [send] accepts and a callback port in 0..65535 this hands one
    0x90 frame with the callback address and port to the socket, addressed
    to the new ip, or broadcast if the ip was cleared or is empty. *)
Theorem receive_reply (ipToHex : string -> string)
        (parseData : Buffer.t -> result Reply) (this : WgCtl)
        (s : UdpSocket) (sip : string) (sport : Z) (msg : Buffer.t)
        (reply : Reply) :
  Searching this s sip sport -> parseData msg = Ok reply ->
  (serialDiffers (replySerial reply) (serial this) = true ->
   let this' := snd (receive ipToHex parseData msg this) in
   ip this' = ip this /\
   detected this' = Pending /\ awaiting this' = true /\
   exists s', localSocket this' = Some s' /\ outbox s' = outbox s) /\
  (serial this = Some (replySerial reply) ->
   replyIp reply = "192.168.0.0"%string ->
   receive ipToHex parseData msg this =
     setServerAddress ipToHex sip sport None (accepted "" this s) /\
   ip (snd (receive ipToHex parseData msg this)) = ""%string) /\
  (serial this = Some (replySerial reply) ->
   replyIp reply <> "192.168.0.0"%string ->
   receive ipToHex parseData msg this =
     setServerAddress ipToHex sip sport None
       (accepted (replyIp reply) this s) /\
   ip (snd (receive ipToHex parseData msg this)) = replyIp reply) /\
  (serial this = Some (replySerial reply) -> remoteSocket this = None ->
   serialFits this -> portFits this -> 0 <= sport <= 65535 ->
   let newIp := if (replyIp reply =? "192.168.0.0")%string then ""%string
                else replyIp reply in
   receive ipToHex parseData msg this =
   (Ok tt,
    set_localSocket
      (Some (mkUdp (if truthyStr newIp then broadcast s else true)
                   (outbox s ++
                    [mkDatagram
                       (header this 0x90
                        ++ firstn 4 (Buffer.hexDecode 7 (ipToHex sip)
                                     ++ repeat 0 4)
                        ++ [sport mod 256; sport / 256; 0] ++ repeat 0 49)
                       (port this)
                       (if truthyStr newIp then newIp
                        else "255.255.255.255"%string)])
                   false))
      (accepted newIp this s))).
Proof.
  intros Hsearch Hparse. split; [|split; [|split]].
  - intros Hdiff this'. subst this'.
    rewrite (receive_mismatch ipToHex parseData this s sip sport msg reply)
      by assumption.
    destruct Hsearch as (Hsock & Hon & Hdet & Haw & _ & _).
    cbn [snd set_localSocket ip detected awaiting localSocket].
    repeat split; try assumption. eexists. split; reflexivity.
  - intros Hser Hip.
    rewrite (receive_match ipToHex parseData this s sip sport msg reply)
      by assumption.
    rewrite Hip. cbn [String.eqb Ascii.eqb Bool.eqb andb].
    split; [reflexivity|].
    now rewrite (preserves_setServerAddress ipToHex ip sip sport None
                   socketBlind_ip).
  - intros Hser Hip.
    rewrite (receive_match ipToHex parseData this s sip sport msg reply)
      by assumption.
    destruct (String.eqb_spec (replyIp reply) "192.168.0.0"); [contradiction|].
    split; [reflexivity|].
    now rewrite (preserves_setServerAddress ipToHex ip sip sport None
                   socketBlind_ip).
  - intros Hser Hr Hs Hport Hsport newIp.
    rewrite (receive_match ipToHex parseData this s sip sport msg reply)
      by assumption.
    fold newIp.
    change (setServerAddress ipToHex sip sport None)
      with (setServerAddress ipToHex sip sport (Some 0)).
    rewrite setServerAddress_sends;
      [|exact Hs | exact Hsport | cbv [isByte]; lia].
    unfold transmit.
    assert (Hr' : remoteSocket (accepted newIp this s) = None) by exact Hr.
    rewrite Hr'. cbn [isSome].
    rewrite (localSendData_eq _ (accepted newIp this s) (removeListener s))
      by (try reflexivity; exact Hport).
    reflexivity.
Qed.

Lemma exampleSearching_searching :
  Searching exampleSearching
    (mkUdp true
       [mkDatagram (header exampleLocal 0x94 ++ body None) 60000
                   "255.255.255.255"]
       true)
    "10.0.0.5" 9000.
Proof. repeat split. Defined.

Lemma receive_reply_witness :
  ip (snd (receive (fun _ => "0a000005"%string)
             (fun _ => Ok (mkReply 1002 "10.0.0.77")) [] exampleSearching))
    = ""%string /\
  ip (snd (receive (fun _ => "0a000005"%string)
             (fun _ => Ok (mkReply 1001 "192.168.0.0")) [] exampleSearching))
    = ""%string /\
  ip (snd (receive (fun _ => "0a000005"%string)
             (fun _ => Ok (mkReply 1001 "10.0.0.42")) [] exampleSearching))
    = "10.0.0.42"%string /\
  option_map (fun u => map dgAddress (outbox u))
    (localSocket
       (snd (receive (fun _ => "0a000005"%string)
               (fun _ => Ok (mkReply 1001 "10.0.0.42")) []
               exampleSearching)))
    = Some ["255.255.255.255"%string; "10.0.0.42"%string].
Proof.
  split; [|split; [|split]].
  - exact (proj1 (proj1 (receive_reply (fun _ => "0a000005"%string)
                           (fun _ => Ok (mkReply 1002 "10.0.0.77"))
                           exampleSearching _ "10.0.0.5" 9000 []
                           (mkReply 1002 "10.0.0.77")
                           exampleSearching_searching eq_refl) eq_refl)).
  - exact (proj2 (proj1 (proj2 (receive_reply (fun _ => "0a000005"%string)
                           (fun _ => Ok (mkReply 1001 "192.168.0.0"))
                           exampleSearching _ "10.0.0.5" 9000 []
                           (mkReply 1001 "192.168.0.0")
                           exampleSearching_searching eq_refl))
                    eq_refl eq_refl)).
  - refine (proj2 (proj1 (proj2 (proj2
              (receive_reply (fun _ => "0a000005"%string)
                 (fun _ => Ok (mkReply 1001 "10.0.0.42"))
                 exampleSearching _ "10.0.0.5" 9000 []
                 (mkReply 1001 "10.0.0.42")
                 exampleSearching_searching eq_refl)))
              eq_refl _)).
    discriminate.
  - rewrite (proj2 (proj2 (proj2
               (receive_reply (fun _ => "0a000005"%string)
                  (fun _ => Ok (mkReply 1001 "10.0.0.42"))
                  exampleSearching _ "10.0.0.5" 9000 []
                  (mkReply 1001 "10.0.0.42")
                  exampleSearching_searching eq_refl)))
               eq_refl eq_refl);
      [reflexivity
      | cbv [serialFits exampleSearching serial]; lia
      | cbv [portFits exampleSearching port]; lia
      | lia].
Defined.

(** The end-to-end scenario: serial 1001, no ip, callback 10.0.0.5:9000.
    Construction broadcasts [search]; the reply of 1001 at 10.0.0.42 sets
    the cached ip and sends [setServerAddress] (0x90) there, with payload
    0a 00 00 05, port 9000 little-endian (0x28 0x23), interval 0. *)
Example discovery_scenario :
  constructor (Udp (mkUdp false [] false)) (Some 1001)
              (Some "10.0.0.5"%string) (Some 9000) None None
    = Ok exampleSearching /\
  let this' := snd (receive (fun _ => "0a000005"%string)
                      (fun _ => Ok (mkReply 1001 "10.0.0.42")) []
                      exampleSearching) in
  ip this' = "10.0.0.42"%string /\
  detected this' = Fulfilled true /\
  option_map (fun s => map dgAddress (outbox s)) (localSocket this')
    = Some ["255.255.255.255"%string; "10.0.0.42"%string] /\
  option_map (fun s => map (fun d => firstn 16 (dgData d)) (outbox s))
             (localSocket this')
    = Some [[0x17; 0x94; 0; 0; 0xe9; 0x03; 0; 0; 0; 0; 0; 0; 0; 0; 0; 0];
            [0x17; 0x90; 0; 0; 0xe9; 0x03; 0; 0; 10; 0; 0; 5; 0x28; 0x23; 0; 0]].
Proof. vm_compute. repeat split. Qed.

(** * Further properties *)

(** ** When the encoder returns *)

Lemma packData_split (this : WgCtl) (funcCode : Z) (payload : option Payload) :
  packData this funcCode payload =
  rbind (packHeader this funcCode) (fun data => writePayload data payload).
Proof.
  unfold packData, packHeader, writePayload, rbind.
  destruct (Buffer.writeUInt8 (Buffer.alloc 64) 23 0); [|reflexivity].
  destruct (Buffer.writeUInt8 a funcCode 1); [|reflexivity].
  reflexivity.
Qed.

Lemma packHeader_ok (this : WgCtl) (funcCode : Z) :
  isByte funcCode -> serialFits this ->
  packHeader this funcCode = Ok (header this funcCode ++ repeat 0 56).
Proof.
  intros Hfc Hs.
  pose proof (packData_header this funcCode None Hfc Hs) as H.
  rewrite packData_split in H.
  destruct (packHeader this funcCode) as [data|e];
    cbn [rbind] in H; unfold writePayload in H; cbn [truthyPayload] in H.
  - injection H as ->. reflexivity.
  - discriminate H.
Qed.

Lemma packHeader_bad (this : WgCtl) (funcCode : Z) :
  ~ (isByte funcCode /\ serialFits this) ->
  packHeader this funcCode = Throw (ERR_OUT_OF_RANGE "value").
Proof.
  intros Hbad. unfold packHeader, Buffer.writeUInt8, Buffer.writeUInt32LE.
  rewrite (BufferFacts.writeUIntLE_value_ok 1 _ 0x17) by (cbn; lia).
  cbn -[Z.modulo Z.div Z.pow Buffer.writeUIntLE].
  assert (Hc : isByte funcCode \/ (funcCode < 0 \/ 255 < funcCode))
    by (unfold isByte; lia).
  destruct Hc as [Hfc|Hfc].
  - rewrite (BufferFacts.writeUIntLE_value_ok 1 _ funcCode)
      by (unfold isByte in Hfc; cbn; lia).
    cbn -[Z.modulo Z.div Z.pow Buffer.writeUIntLE].
    unfold serialFits in Hbad.
    destruct (serial this) as [s|]; [|tauto].
    assert (Hs : s < 0 \/ 4294967295 < s) by (unfold isByte in *; lia).
    unfold truthyNum. destruct (Z.eqb_spec s 0) as [->|_]; [lia|].
    cbn [negb]. apply BufferFacts.writeUIntLE_value_bad. cbn. lia.
  - rewrite (BufferFacts.writeUIntLE_value_bad 1 _ funcCode) by (cbn; lia).
    reflexivity.
Qed.

Lemma writePayload_bad (hd : list Z) (payload : option Payload) :
  length hd = 8%nat -> ~ payloadFits payload ->
  exists arg,
    writePayload (hd ++ repeat 0 56) payload = Throw (ERR_OUT_OF_RANGE arg).
Proof.
  intros Hl Hbad. destruct payload as [[b|n|s]|]; cbn [payloadFits] in Hbad;
    try tauto.
  - eexists. apply writePayload_oversize; [assumption|lia].
  - eexists. apply writePayload_number_bad. unfold isByte in Hbad. lia.
Qed.

Lemma packHeader_Ok_inv (this : WgCtl) (funcCode : Z) (data : Buffer.t) :
  packHeader this funcCode = Ok data ->
  isByte funcCode /\ serialFits this /\
  data = header this funcCode ++ repeat 0 56.
Proof.
  intros Hd.
  assert (Hdec : (isByte funcCode /\ serialFits this)
                 \/ ~ (isByte funcCode /\ serialFits this)).
  { unfold isByte, serialFits. destruct (serial this); lia. }
  destruct Hdec as [[Hfc Hs]|Hbad].
  - rewrite packHeader_ok in Hd by assumption. injection Hd as <-. auto.
  - rewrite packHeader_bad in Hd by assumption. discriminate Hd.
Qed.

Lemma packData_Ok_shape (this : WgCtl) (funcCode : Z)
      (payload : option Payload) (data : Buffer.t) :
  packData this funcCode payload = Ok data ->
  isByte funcCode /\ serialFits this /\ payloadFits payload /\
  data = header this funcCode ++ body payload /\ length data = 64%nat.
Proof.
  rewrite packData_split.
  destruct (packHeader this funcCode) as [hd|e] eqn:Hh; [|discriminate].
  apply packHeader_Ok_inv in Hh. destruct Hh as (Hfc & Hs & ->).
  cbn [rbind]. intros Hd.
  assert (Hp : payloadFits payload).
  { assert (Hdec : payloadFits payload \/ ~ payloadFits payload).
    { unfold payloadFits, isByte. destruct payload as [[b|n|s]|]; lia. }
    destruct Hdec as [H|H]; [exact H|].
    destruct (writePayload_bad (header this funcCode) payload
                (header_length this funcCode) H) as [arg Ha].
    congruence. }
  rewrite writePayload_ok in Hd by (try apply header_length; assumption).
  assert (Hlen : length (header this funcCode ++ body payload) = 64%nat).
  { rewrite length_app, header_length, body_length by assumption.
    reflexivity. }
  injection Hd as Hd. subst data.
  exact (conj Hfc (conj Hs (conj Hp (conj eq_refl Hlen)))).
Qed.

(** X1: [packData] returns a frame exactly when the function code is a
    byte, the configured serial is absent or an unsigned 32-bit number, and
    the payload fits (a byte sequence of at most 56 bytes, a number in
    0..255, any string, or none); the frame is then the header followed by
    the padded payload, and otherwise a range error is thrown. *)
Theorem packData_returns_iff (this : WgCtl) (funcCode : Z)
        (payload : option Payload) :
  ((exists data, packData this funcCode payload = Ok data) <->
   isByte funcCode /\ serialFits this /\ payloadFits payload) /\
  (forall data, packData this funcCode payload = Ok data ->
     data = header this funcCode ++ body payload /\ length data = 64%nat) /\
  ((forall data, packData this funcCode payload <> Ok data) ->
   exists arg, packData this funcCode payload = Throw (ERR_OUT_OF_RANGE arg)).
Proof.
  assert (Hdec : (isByte funcCode /\ serialFits this /\ payloadFits payload)
                 \/ ~ (isByte funcCode /\ serialFits this)
                 \/ (isByte funcCode /\ serialFits this /\
                     ~ payloadFits payload)).
  { unfold isByte, serialFits, payloadFits, isByte.
    destruct (serial this) as [s|]; destruct payload as [[b|n|s']|]; lia. }
  assert (Hthrow : ~ (isByte funcCode /\ serialFits this /\ payloadFits payload)
                   -> exists arg, packData this funcCode payload =
                                  Throw (ERR_OUT_OF_RANGE arg)).
  { intros Hn. rewrite packData_split.
    destruct Hdec as [H|[H|(Hfc & Hs & Hp)]]; [tauto| |].
    - rewrite packHeader_bad by assumption. eexists. reflexivity.
    - rewrite packHeader_ok by assumption. cbn [rbind].
      apply writePayload_bad; [apply header_length | assumption]. }
  assert (Hok : isByte funcCode /\ serialFits this /\ payloadFits payload ->
                packData this funcCode payload =
                Ok (header this funcCode ++ body payload)).
  { intros (Hfc & Hs & Hp). now apply packData_ok. }
  assert (Hinv : forall data, packData this funcCode payload = Ok data ->
                 isByte funcCode /\ serialFits this /\ payloadFits payload).
  { intros data Hd.
    destruct Hdec as [H|H]; [exact H|].
    destruct Hthrow as [arg Ha]; [tauto|]. congruence. }
  split; [|split].
  - split.
    + intros [data Hd]. now apply (Hinv data).
    + intros H. eexists. now apply Hok.
  - intros data Hd. pose proof (Hinv data Hd) as H.
    rewrite (Hok H) in Hd. injection Hd as Hd. subst data.
    split; [reflexivity|].
    destruct H as (_ & _ & Hp). cbn [length].
    rewrite length_app, serialBytes_length, body_length by assumption.
    reflexivity.
  - intros Hno. apply Hthrow. intros H. apply (Hno _ (Hok H)).
Qed.

Lemma packData_returns_iff_witness :
  isByte 0x40 /\ serialFits exampleLocal /\ payloadFits (Some (PNumber 3)).
Proof.
  refine (proj1 (proj1 (packData_returns_iff exampleLocal 0x40
                          (Some (PNumber 3)))) _).
  eexists. reflexivity.
Defined.

(** ** Frames are made of bytes *)

Lemma le_bytes_bytes (w : nat) (v : Z) : Forall isByte (Buffer.le_bytes w v).
Proof.
  revert v. induction w as [|w IH]; intro v; cbn [Buffer.le_bytes];
    constructor; [|apply IH].
  unfold isByte. pose proof (Z.mod_pos_bound v 256). lia.
Qed.

Lemma unhex_range (c : ascii) (x : Z) :
  Buffer.unhex c = Some x -> 0 <= x <= 15.
Proof.
  unfold Buffer.unhex.
  set (n := Z.of_N (N_of_ascii c)).
  destruct (Z.leb_spec 48 n), (Z.leb_spec n 57); cbn [andb];
    try (intros [= <-]; lia);
    destruct (Z.leb_spec 97 n), (Z.leb_spec n 102); cbn [andb];
    try (intros [= <-]; lia);
    destruct (Z.leb_spec 65 n), (Z.leb_spec n 70); cbn [andb];
    try (intros [= <-]; lia); discriminate.
Qed.

Lemma hexDecode_bytes (len : nat) (s : string) :
  Forall isByte (Buffer.hexDecode len s).
Proof.
  revert s. induction len as [|len IH]; intro s; cbn [Buffer.hexDecode];
    [constructor|].
  destruct s as [|a [|b rest]]; try constructor.
  destruct (Buffer.unhex a) as [x|] eqn:Ha; [|constructor].
  destruct (Buffer.unhex b) as [y|] eqn:Hb; constructor; [|apply IH].
  apply unhex_range in Ha, Hb. unfold isByte. lia.
Qed.

Lemma repeat_zero_bytes (n : nat) : Forall isByte (repeat 0 n).
Proof.
  induction n; cbn [repeat]; constructor; [unfold isByte; lia | assumption].
Qed.

(** X2: a frame returned by [packData] holds only values in 0..255,
    provided a byte-sequence payload does. *)
Theorem packData_bytes (this : WgCtl) (funcCode : Z)
        (payload : option Payload) (data : Buffer.t) :
  packData this funcCode payload = Ok data ->
  (forall b, payload = Some (PBuffer b) -> Forall isByte b) ->
  Forall isByte data.
Proof.
  intros Hd Hb.
  destruct (packData_Ok_shape this funcCode payload data Hd)
    as (Hfc & Hs & Hp & -> & _).
  apply Forall_app. split.
  - unfold header. apply Forall_app. split.
    + repeat apply Forall_cons; try apply Forall_nil; try exact Hfc;
        unfold isByte; lia.
    + unfold serialBytes. destruct (serial this) as [s|].
      * destruct (truthyNum s); [apply le_bytes_bytes|].
        apply (repeat_zero_bytes 4).
      * apply (repeat_zero_bytes 4).
  - unfold body, pad56.
    destruct payload as [[b|n|s]|]; apply Forall_app; split;
      try apply repeat_zero_bytes.
    + now apply Hb.
    + apply Forall_cons; [exact Hp | apply Forall_nil].
    + apply hexDecode_bytes.
    + apply Forall_nil.
Qed.

Lemma packData_bytes_witness :
  Forall isByte (header exampleLocal 0x54
                 ++ body (Some (PBuffer [0x55; 0xaa; 0xaa; 0x55]))).
Proof.
  apply (packData_bytes exampleLocal 0x54
           (Some (PBuffer [0x55; 0xaa; 0xaa; 0x55]))).
  - reflexivity.
  - intros b [= <-].
    repeat apply Forall_cons; try apply Forall_nil; unfold isByte; lia.
Defined.

(** ** Hex strings and byte sequences *)

Lemma isSpace_stripSpace (s : string) : stripSpace (stripSpace s) = stripSpace s.
Proof.
  induction s as [|c s IH]; [reflexivity|].
  cbn [stripSpace]. destruct (isSpace c) eqn:Hc; [exact IH|].
  cbn [stripSpace]. now rewrite Hc, IH.
Qed.

Lemma splice_nil (buf : Buffer.t) (offset : nat) :
  Buffer.splice buf offset [] = buf.
Proof.
  unfold Buffer.splice. cbn [length app]. rewrite Nat.add_0_r.
  apply firstn_skipn.
Qed.

(** X3: a hex-string payload gives the same result as the byte sequence
    it decodes to (whitespace stripped, at most 56 bytes), and whitespace
    in it makes no difference; this holds whether the encoder returns or
    throws. *)
Theorem packData_hex_string (this : WgCtl) (funcCode : Z) (s : string) :
  packData this funcCode (Some (PString s)) =
    packData this funcCode
      (Some (PBuffer (Buffer.hexDecode 56 (stripSpace s)))) /\
  packData this funcCode (Some (PString s)) =
    packData this funcCode (Some (PString (stripSpace s))).
Proof.
  rewrite !packData_split.
  destruct (packHeader this funcCode) as [data|e] eqn:Hh;
    [|split; reflexivity].
  apply packHeader_Ok_inv in Hh. destruct Hh as (Hfc & Hs & ->).
  cbn [rbind].
  pose proof (header_length this funcCode) as Hl.
  rewrite !writePayload_ok;
    try assumption; cbn [payloadFits]; try exact I;
    try apply BufferFacts.hexDecode_length.
  cbn [body]. now rewrite isSpace_stripSpace.
Qed.

(** ** The shape of every command *)

Lemma set_localSocket_same (w : WgCtl) (s : UdpSocket) :
  localSocket w = Some s -> set_localSocket (Some s) w = w.
Proof.
  destruct w. cbn [localSocket]. intros ->. reflexivity.
Qed.

(** The transport step returns, or [send] has rejected the port of a Local
    instance. *)
Lemma transmit_cases (data : Buffer.t) (w : WgCtl) :
  fst (transmit data w) = Ok tt \/
  (remoteSocket w = None /\ ~ portFits w /\
   exists s, localSocket w = Some s /\
             transmit data w =
             (Throw ERR_SOCKET_BAD_PORT,
              set_localSocket
                (Some (if truthyStr (ip w) then s else setBroadcast true s))
                w)).
Proof.
  assert (Hdec : portFits w \/ ~ portFits w) by (unfold portFits; lia).
  destruct Hdec as [Hp|Hp];
    [left; apply transmit_returns; now right|].
  destruct (remoteSocket w) as [t|] eqn:Hr;
    [left; apply transmit_returns; left; now rewrite Hr|].
  destruct (localSocket w) as [s|] eqn:Hl.
  - right. split; [reflexivity|]. split; [exact Hp|]. exists s.
    split; [reflexivity|]. unfold transmit. rewrite Hr. cbn [isSome].
    now rewrite (localSendData_cases data w s Hl), (portFits_false w Hp).
  - left. unfold transmit, localSendData, bind, get, ret.
    now rewrite Hr, Hl.
Qed.

(** Every command builds a payload, packs it with its function code and
    transmits the frame; [setAddress] then clears the cached ip. *)
Lemma run_normal_form (ipToHex : string -> string) (Date : Type)
      (buildBcdDate : Date -> Payload) (c : Command Date) (w : WgCtl) :
  run ipToHex buildBcdDate c w =
  match commandPayload ipToHex buildBcdDate c with
  | Throw e => (Throw e, w)
  | Ok p =>
      match packData w (funcCodeOf c) p with
      | Throw e => (Throw e, w)
      | Ok data =>
          match transmit data w with
          | (Ok _, w') =>
              (Ok tt, if isSetAddress c then set_ip "" w' else w')
          | (Throw e, w') => (Throw e, w')
          end
      end
  end.
Proof.
  destruct c; cbn [run commandPayload funcCodeOf isSetAddress];
    unfold search, openDoor, getDate, setDate, setAuth, getAuth, removeAuth,
      clearAuth, setServerAddress, setAddress, getServerAddress, bind, lift,
      modify;
    try match goal with
        | |- context [rbind ?r _] => destruct r; cbn [rbind]
        end;
    try reflexivity;
    rewrite sendData_eq;
    match goal with
    | |- context [packData ?w ?f ?p] => destruct (packData w f p)
    end; try reflexivity;
    match goal with
    | |- context [transmit ?d ?w] => destruct (transmit d w) as [[[]|?] ?]
    end; reflexivity.
Qed.

(** X4: a command that throws has handed no frame to a socket and has not
    cleared the cached ip.  After a range error of a buffer write the
    instance is exactly as it was.  The one other exception is that of
    [send] rejecting the port of a Local instance (outside 1..65535): the
    instance is then as it was when an ip is cached, and as it was but for
    the broadcast flag, already switched on, when none is. *)
Theorem run_throw_unchanged (ipToHex : string -> string) (Date : Type)
        (buildBcdDate : Date -> Payload) (c : Command Date) (this : WgCtl)
        (e : JsError) :
  fst (run ipToHex buildBcdDate c this) = Throw e ->
  run ipToHex buildBcdDate c this = (Throw e, this) \/
  (e = ERR_SOCKET_BAD_PORT /\ remoteSocket this = None /\
   ~ portFits this /\ ip this = ""%string /\
   exists s, localSocket this = Some s /\
             run ipToHex buildBcdDate c this =
             (Throw e, set_localSocket (Some (setBroadcast true s)) this)).
Proof.
  rewrite run_normal_form.
  destruct (commandPayload ipToHex buildBcdDate c) as [p|e'];
    [|cbn; intros [= ->]; now left].
  destruct (packData this (funcCodeOf c) p) as [data|e'];
    [|cbn; intros [= ->]; now left].
  destruct (transmit_cases data this) as [Hok|(Hr & Hp & s & Hl & Heq)].
  - destruct (transmit data this) as [[[]|e'] w']; cbn [fst] in *;
      [discriminate | discriminate Hok].
  - rewrite Heq. cbn [fst]. intros [= <-].
    destruct (ip this) as [|ch rest] eqn:Hip; cbn [truthyStr].
    + right. repeat split; try assumption. exists s. now split.
    + left. now rewrite (set_localSocket_same this s Hl).
Qed.

Lemma run_throw_unchanged_witness :
  run (fun s => s) (fun _ : unit => PNumber 0)
      (CSetServerAddress "10.0.0.5" 70000 None) exampleKnown =
    (Throw (ERR_OUT_OF_RANGE "value"), exampleKnown) /\
  (exists s,
     localSocket (set_port 0 exampleLocal) = Some s /\
     run (fun s => s) (fun _ : unit => PNumber 0) (COpenDoor 1)
         (set_port 0 exampleLocal) =
     (Throw ERR_SOCKET_BAD_PORT,
      set_localSocket (Some (setBroadcast true s))
                      (set_port 0 exampleLocal))).
Proof.
  split.
  - destruct (run_throw_unchanged (fun s => s) unit (fun _ => PNumber 0)
                (CSetServerAddress "10.0.0.5" 70000 None) exampleKnown
                (ERR_OUT_OF_RANGE "value") eq_refl)
      as [H|(H & _)]; [exact H | discriminate H].
  - destruct (run_throw_unchanged (fun s => s) unit (fun _ => PNumber 0)
                (COpenDoor 1) (set_port 0 exampleLocal)
                ERR_SOCKET_BAD_PORT eq_refl)
      as [H|(_ & _ & _ & _ & H)]; [|exact H].
    vm_compute in H. discriminate H.
Defined.

Lemma run_Ok_inv (ipToHex : string -> string) (Date : Type)
      (buildBcdDate : Date -> Payload) (c : Command Date) (this : WgCtl) :
  fst (run ipToHex buildBcdDate c this) = Ok tt ->
  exists p data,
    commandPayload ipToHex buildBcdDate c = Ok p /\
    packData this (funcCodeOf c) p = Ok data /\
    length data = 64%nat /\
    firstn 2 data = [0x17; funcCodeOf c] /\
    Buffer.slice data 4 4 = serialBytes this /\
    fst (transmit data this) = Ok tt /\
    snd (run ipToHex buildBcdDate c this) =
      (if isSetAddress c then set_ip "" (snd (transmit data this))
       else snd (transmit data this)).
Proof.
  rewrite run_normal_form.
  destruct (commandPayload ipToHex buildBcdDate c) as [p|e];
    [|cbn; discriminate].
  destruct (packData this (funcCodeOf c) p) as [data|e] eqn:Hd;
    [|cbn; discriminate].
  destruct (transmit data this) as [[[]|e] w'] eqn:Ht; [|cbn; discriminate].
  intros _. exists p, data. cbn [fst snd].
  destruct (packData_Ok_shape this (funcCodeOf c) p data Hd)
    as (_ & _ & _ & Heq & Hlen).
  split; [reflexivity|]. split; [exact Hd|]. split; [exact Hlen|].
  split; [now rewrite Heq|]. split; [|rewrite Ht; split; reflexivity].
  rewrite Heq.
  destruct (eight_bytes _ (header_length this (funcCodeOf c)))
    as (a & b & c0 & d & e & f & g & h & Hh).
  pose proof Hh as Hh'. unfold header in Hh'. cbn [app] in Hh'.
  injection Hh' as _ _ _ _ Hsb. rewrite Hh, Hsb. reflexivity.
Qed.

Lemma transmit_local (data : Buffer.t) (this : WgCtl) (s : UdpSocket) :
  localSocket this = Some s -> remoteSocket this = None ->
  fst (transmit data this) = Ok tt ->
  portFits this /\
  snd (transmit data this) =
  set_localSocket
    (Some (mkUdp (if truthyStr (ip this) then broadcast s else true)
                 (outbox s ++
                  [mkDatagram data (port this)
                     (if truthyStr (ip this) then ip this
                      else "255.255.255.255"%string)])
                 (onceMessage s)))
    this.
Proof.
  intros Hl Hr Hok.
  destruct (transmit_cases data this) as [_|(_ & _ & s' & _ & Heq)];
    [|rewrite Heq in Hok; discriminate Hok].
  assert (Hdec : portFits this \/ ~ portFits this) by (unfold portFits; lia).
  destruct Hdec as [Hp|Hp].
  - split; [exact Hp|]. unfold transmit. rewrite Hr. cbn [isSome].
    now rewrite (localSendData_eq data this s Hl Hp).
  - exfalso. unfold transmit in Hok. rewrite Hr in Hok. cbn [isSome] in Hok.
    rewrite (localSendData_cases data this s Hl), (portFits_false this Hp)
      in Hok.
    discriminate Hok.
Qed.

Lemma transmit_remote (data : Buffer.t) (this : WgCtl) (t : TcpSocket) :
  remoteSocket this = Some t ->
  snd (transmit data this) =
  set_remoteSocket (Some (mkTcp (written t ++ [data]))) this.
Proof.
  intros Hr. unfold transmit, remoteSendData, bind, get, modify.
  rewrite Hr. reflexivity.
Qed.

(** X5: on a Local instance, every command that returns has handed exactly
    one datagram to the socket, after those sent before: a 64-byte frame
    that starts with 0x17 and the command's function code and carries the
    serial at offsets 4..7, for the configured port, addressed to the ip
    cached when the command was called, or to 255.255.255.255 (with the
    broadcast flag switched on) if none was cached.  The listener is left
    as it was. *)
Theorem run_sends_one_datagram (ipToHex : string -> string) (Date : Type)
        (buildBcdDate : Date -> Payload) (c : Command Date) (this : WgCtl)
        (s : UdpSocket) :
  localSocket this = Some s -> remoteSocket this = None ->
  fst (run ipToHex buildBcdDate c this) = Ok tt ->
  exists data,
    length data = 64%nat /\
    firstn 2 data = [0x17; funcCodeOf c] /\
    Buffer.slice data 4 4 = serialBytes this /\
    localSocket (snd (run ipToHex buildBcdDate c this)) =
      Some (mkUdp (if truthyStr (ip this) then broadcast s else true)
                  (outbox s ++
                   [mkDatagram data (port this)
                      (if truthyStr (ip this) then ip this
                       else "255.255.255.255"%string)])
                  (onceMessage s)) /\
    remoteSocket (snd (run ipToHex buildBcdDate c this)) = None.
Proof.
  intros Hl Hr Hok.
  destruct (run_Ok_inv ipToHex Date buildBcdDate c this Hok)
    as (p & data & _ & _ & Hlen & Hhd & Hser & Ht & ->).
  destruct (transmit_local data this s Hl Hr Ht) as [_ Hsnd].
  exists data. repeat split; try assumption;
    rewrite Hsnd; destruct (isSetAddress c); cbn; auto.
Qed.

Lemma run_sends_one_datagram_witness :
  exists data,
    length data = 64%nat /\
    firstn 2 data = [0x17; 0x96] /\
    Buffer.slice data 4 4 = serialBytes exampleKnown /\
    localSocket (snd (run (fun _ => "c0a80164"%string)
                          (fun _ : unit => PNumber 0)
                          (CSetAddress "192.168.1.100" "255.255.255.0"
                                       "192.168.1.1") exampleKnown)) =
      Some (mkUdp false [mkDatagram data 60000 "10.0.0.42"] false) /\
    remoteSocket (snd (run (fun _ => "c0a80164"%string)
                           (fun _ : unit => PNumber 0)
                           (CSetAddress "192.168.1.100" "255.255.255.0"
                                        "192.168.1.1") exampleKnown)) = None.
Proof.
  apply (run_sends_one_datagram (fun _ => "c0a80164"%string) unit
           (fun _ => PNumber 0)
           (CSetAddress "192.168.1.100" "255.255.255.0" "192.168.1.1")
           exampleKnown (mkUdp false [] false)); reflexivity.
Defined.

(** X6: on a Remote instance, every command that returns has written
    exactly one frame to the TCP socket, after those written before: 64
    bytes starting with 0x17 and the command's function code; the UDP side
    stays as it was. *)
Theorem run_writes_one_frame (ipToHex : string -> string) (Date : Type)
        (buildBcdDate : Date -> Payload) (c : Command Date) (this : WgCtl)
        (t : TcpSocket) :
  remoteSocket this = Some t ->
  fst (run ipToHex buildBcdDate c this) = Ok tt ->
  exists data,
    length data = 64%nat /\
    firstn 2 data = [0x17; funcCodeOf c] /\
    Buffer.slice data 4 4 = serialBytes this /\
    remoteSocket (snd (run ipToHex buildBcdDate c this)) =
      Some (mkTcp (written t ++ [data])) /\
    localSocket (snd (run ipToHex buildBcdDate c this)) = localSocket this.
Proof.
  intros Hr Hok.
  destruct (run_Ok_inv ipToHex Date buildBcdDate c this Hok)
    as (p & data & _ & _ & Hlen & Hhd & Hser & _ & ->).
  exists data. repeat split; try assumption;
    rewrite (transmit_remote data this t Hr);
    destruct (isSetAddress c); cbn; auto.
Qed.

Lemma run_writes_one_frame_witness :
  exists data,
    length data = 64%nat /\
    firstn 2 data = [0x17; 0x40] /\
    Buffer.slice data 4 4 = serialBytes exampleRemote /\
    remoteSocket (snd (run (fun s => s) (fun _ : unit => PNumber 0)
                           (COpenDoor 1) exampleRemote)) =
      Some (mkTcp [data]) /\
    localSocket (snd (run (fun s => s) (fun _ : unit => PNumber 0)
                          (COpenDoor 1) exampleRemote)) = None.
Proof.
  apply (run_writes_one_frame (fun s => s) unit (fun _ => PNumber 0)
           (COpenDoor 1) exampleRemote (mkTcp [])); reflexivity.
Defined.

(** ** What the transport and the detect flow leave alone *)

Lemma preserves_modify {T} (f : WgCtl -> T) (g : WgCtl -> WgCtl) :
  (forall w, f (g w) = f w) -> preserves f (modify g).
Proof. intros H w. apply H. Qed.

Lemma socketBlind_stable {T} (f : WgCtl -> T) :
  socketBlind f -> socketStable f.
Proof. intros [Hl Hr]. split; intros; auto. Qed.

Lemma socketKind_stable : socketStable socketKind.
Proof.
  split; intros x x0 w H; unfold socketKind; fields; now rewrite H.
Qed.

Lemma socketKind_flowBlind : flowBlind socketKind.
Proof. repeat split. Qed.

Section StableFrames.
Context {T : Type} (f : WgCtl -> T) (Hst : socketStable f).

Lemma transmit_stable (data : Buffer.t) : preserves f (transmit data).
Proof.
  destruct Hst as [Hl Hr]. intros w. unfold transmit.
  destruct (remoteSocket w) as [t|] eqn:Er; cbn [isSome].
  - unfold remoteSendData, bind, get, modify. rewrite Er. cbn [snd].
    now apply (Hr _ t).
  - destruct (localSocket w) as [s|] eqn:El.
    + rewrite (localSendData_cases data w s El).
      destruct (_ && _); cbn [snd]; now apply (Hl _ s).
    + unfold localSendData, bind, get, ret. now rewrite El.
Qed.

Lemma sendData_stable (funcCode : Z) (payload : option Payload) :
  preserves f (sendData funcCode payload).
Proof.
  intros w. rewrite sendData_eq.
  destruct (packData w funcCode payload); [|reflexivity].
  apply transmit_stable.
Qed.

Lemma run_stable (ipToHex : string -> string) (Date : Type)
      (buildBcdDate : Date -> Payload) (c : Command Date) :
  (forall v w, f (set_ip v w) = f w) ->
  preserves f (run ipToHex buildBcdDate c).
Proof.
  intros Hip w. rewrite run_normal_form.
  destruct (commandPayload ipToHex buildBcdDate c) as [p|e]; [|reflexivity].
  destruct (packData w (funcCodeOf c) p) as [data|e]; [|reflexivity].
  pose proof (transmit_stable data w) as Ht.
  destruct (transmit data w) as [[[]|e] w']; cbn [snd] in *; [|exact Ht].
  destruct (isSetAddress c); rewrite ?Hip; exact Ht.
Qed.

Lemma detect_stable :
  (forall v w, f (set_detected v w) = f w) ->
  (forall v w, f (set_awaiting v w) = f w) ->
  preserves f detect.
Proof.
  destruct Hst as [Hl _]. intros Hdet Haw w. unfold detect, bind, get, throw.
  destruct (_ || _); [reflexivity|].
  unfold search. pose proof (sendData_stable 0x94 None w) as Hk.
  destruct (sendData 0x94 None w) as [[[]|e] w1]; cbn [snd] in *;
    [|exact Hk].
  unfold modify, ret. rewrite <- Hk.
  destruct (localSocket (set_detected Pending w1)) as [s|] eqn:El;
    cbn [snd]; rewrite Haw.
  - rewrite (Hl _ s) by exact El. apply Hdet.
  - apply Hdet.
Qed.

Section Receive.
Variable ipToHex : string -> string.
Variable parseData : Buffer.t -> result Reply.
Hypothesis Hfl : flowBlind f.

Lemma setServerAddress_stable (sip : string) (sport : Z)
      (interval : option Z) :
  preserves f (setServerAddress ipToHex sip sport interval).
Proof.
  unfold setServerAddress. apply preserves_bind; [apply preserves_lift|].
  intro payload. apply sendData_stable.
Qed.

Lemma onMessage_preserves (msg : Buffer.t) :
  preserves f (onMessage parseData msg).
Proof.
  destruct Hfl as (Hip & Hdet & _). unfold onMessage, resolve.
  apply preserves_bind; [apply preserves_lift|]. intro data.
  apply preserves_bind; [apply preserves_get|]. intro this.
  destruct (serialDiffers _ _); [apply preserves_ret|].
  apply preserves_bind.
  - destruct (_ =? _)%string; apply preserves_modify; intro w; apply Hip.
  - intros _. apply preserves_modify. intro w.
    destruct (detected w); [apply Hdet | reflexivity].
Qed.

Lemma emitMessage_preserves (msg : Buffer.t) :
  preserves f (emitMessage parseData msg).
Proof.
  destruct Hst as [Hl _]. intros w. unfold emitMessage, bind, get, modify.
  destruct (localSocket w) as [s|] eqn:El; [|reflexivity].
  destruct (onceMessage s); [|reflexivity].
  pose proof (onMessage_preserves msg
                (set_localSocket (Some (removeListener s)) w)) as Hk.
  destruct (onMessage parseData msg _) as [[[]|e] w1]; cbn [snd] in *;
    rewrite Hk; now apply (Hl _ s).
Qed.

Lemma resumeDetect_preserves : preserves f (resumeDetect ipToHex).
Proof.
  destruct Hfl as (_ & _ & Haw). intros w.
  unfold resumeDetect, bind, get, modify, ret, throw.
  destruct (awaiting w); [|reflexivity].
  destruct (detected w); [reflexivity|].
  destruct (serverIp w) as [sip|]; [|apply Haw].
  destruct (serverPort w) as [sport|]; [|apply Haw].
  rewrite setServerAddress_stable. apply Haw.
Qed.

Lemma receive_preserves (msg : Buffer.t) :
  preserves f (receive ipToHex parseData msg).
Proof.
  unfold receive. apply preserves_bind; [apply emitMessage_preserves|].
  intros _. apply resumeDetect_preserves.
Qed.

End Receive.
End StableFrames.

(** ** The transport and the configuration are fixed at construction *)

Lemma constructor_udp_eq (s : UdpSocket) (serial0 : option Z)
      (serverIp0 : option string) (serverPort0 : option Z)
      (ip0 : option string) (port0 : option Z) :
  constructor (Udp s) serial0 serverIp0 serverPort0 ip0 port0 =
  let ipv := match ip0 with Some x => x | None => ""%string end in
  let portv := match port0 with Some p => p | None => 60000 end in
  let plain := mkWgCtl ipv portv serial0 (Some s) None
                       (Fulfilled (truthyStr ipv)) serverIp0 serverPort0
                       false in
  if negb (truthyStr ipv) && truthyOptNum serial0
  then Ok (snd (detect plain)) else Ok plain.
Proof.
  unfold constructor. cbn [rbind]. fields. cbn [isSome blank].
  rewrite andb_true_r. reflexivity.
Qed.

Lemma constructor_tcp_eq (t : TcpSocket) (serial0 : option Z)
      (serverIp0 : option string) (serverPort0 : option Z)
      (ip0 : option string) (port0 : option Z) :
  constructor (Tcp t) serial0 serverIp0 serverPort0 ip0 port0 =
  let ipv := match ip0 with Some x => x | None => ""%string end in
  let portv := match port0 with Some p => p | None => 60000 end in
  Ok (mkWgCtl ipv portv serial0 None (Some t) (Fulfilled (truthyStr ipv))
              None None false).
Proof.
  unfold constructor. cbn. rewrite andb_false_r. reflexivity.
Qed.

(** X7: an instance holds the UDP socket or the TCP socket it was built
    with, never both and never neither, and no command and no incoming
    datagram changes which one it holds. *)
Theorem transport_fixed (ipToHex : string -> string) (Date : Type)
        (buildBcdDate : Date -> Payload)
        (parseData : Buffer.t -> result Reply) :
  (forall socket serial0 serverIp0 serverPort0 ip0 port0 this,
     constructor socket serial0 serverIp0 serverPort0 ip0 port0 = Ok this ->
     socketKind this =
     match socket with Udp _ => (true, false) | Tcp _ => (false, true) end) /\
  (forall (c : Command Date) this,
     socketKind (snd (run ipToHex buildBcdDate c this)) = socketKind this) /\
  (forall msg this,
     socketKind (snd (receive ipToHex parseData msg this)) = socketKind this).
Proof.
  split; [|split].
  - intros [s|t] serial0 serverIp0 serverPort0 ip0 port0 this.
    + rewrite constructor_udp_eq. cbv zeta.
      destruct (_ && _); intros [= <-]; [|reflexivity].
      rewrite (detect_stable socketKind socketKind_stable); reflexivity.
    + rewrite constructor_tcp_eq. intros [= <-]. reflexivity.
  - intros c this.
    now apply (run_stable socketKind socketKind_stable).
  - intros msg this.
    apply (receive_preserves socketKind socketKind_stable).
    apply socketKind_flowBlind.
Qed.

Lemma transport_fixed_witness :
  socketKind exampleSearching = (true, false).
Proof.
  refine (proj1 (transport_fixed (fun s => s) unit (fun _ => PNumber 0)
                   (fun _ => Ok (mkReply 0 "")))
            (Udp (mkUdp false [] false)) (Some 1001)
            (Some "10.0.0.5"%string) (Some 9000) None None
            exampleSearching _).
  reflexivity.
Defined.

(** X8: the serial, the port and the callback target are never changed:
    not by a command, not by the start of discovery, not by an incoming
    datagram, whether these return or throw. *)
Theorem configuration_fixed (ipToHex : string -> string) (Date : Type)
        (buildBcdDate : Date -> Payload)
        (parseData : Buffer.t -> result Reply) (this : WgCtl) :
  let config w := (serial w, port w, serverIp w, serverPort w) in
  (forall c : Command Date,
     config (snd (run ipToHex buildBcdDate c this)) = config this) /\
  config (snd (detect this)) = config this /\
  (forall msg,
     config (snd (receive ipToHex parseData msg this)) = config this).
Proof.
  intros config.
  assert (Hst : socketStable config).
  { apply socketBlind_stable. split; reflexivity. }
  split; [|split].
  - intros c. now apply (run_stable config Hst).
  - now apply (detect_stable config Hst).
  - intros msg. apply (receive_preserves config Hst). repeat split.
Qed.

(** ** When discovery starts *)

Lemma packData_Ok_serialFits (this : WgCtl) (funcCode : Z)
      (payload : option Payload) (data : Buffer.t) :
  packData this funcCode payload = Ok data -> serialFits this.
Proof.
  rewrite packData_split.
  destruct (packHeader this funcCode) as [hd|e] eqn:Hh; [|discriminate].
  intros _. now apply packHeader_Ok_inv in Hh.
Qed.

Lemma detect_guard (this : WgCtl) :
  truthyOptStr (serverIp this) = false \/
  truthyOptNum (serverPort this) = false ->
  detect this =
  (Throw (Error "Detect is not available when server ip and port undefined."),
   this).
Proof.
  intros H. unfold detect, bind, get, throw.
  destruct H as [-> | ->]; rewrite ?orb_true_r; reflexivity.
Qed.

Lemma detect_search_fails (this : WgCtl) :
  ~ serialFits this -> snd (detect this) = this.
Proof.
  intros Hs. unfold detect, bind, get, throw.
  destruct (_ || _); [reflexivity|].
  unfold search. rewrite sendData_eq.
  destruct (packData this 148 None) as [data|e] eqn:Hd; [|reflexivity].
  apply packData_Ok_serialFits in Hd. contradiction.
Qed.

Lemma detect_starts (this : WgCtl) (s : UdpSocket) :
  localSocket this = Some s -> remoteSocket this = None ->
  truthyOptStr (serverIp this) = true ->
  truthyOptNum (serverPort this) = true ->
  serialFits this -> portFits this ->
  detect this =
  (Ok tt,
   set_awaiting true
     (set_localSocket
        (Some (mkUdp (if truthyStr (ip this) then broadcast s else true)
                     (outbox s ++
                      [mkDatagram (header this 0x94 ++ body None) (port this)
                         (if truthyStr (ip this) then ip this
                          else "255.255.255.255"%string)])
                     true))
        (set_detected Pending this))).
Proof.
  intros Hl Hr Hsip Hsport Hs Hp. unfold detect, bind, get, throw.
  rewrite Hsip, Hsport. cbn [negb orb].
  unfold search. rewrite sendData_eq.
  rewrite packData_ok by (cbv [isByte payloadFits]; try assumption; lia).
  unfold transmit. rewrite Hr. cbn [isSome].
  rewrite (localSendData_eq _ this s Hl Hp).
  unfold modify, ret. fields. reflexivity.
Qed.

Lemma detect_bad_port (this : WgCtl) (s : UdpSocket) :
  localSocket this = Some s -> remoteSocket this = None ->
  truthyOptStr (serverIp this) = true ->
  truthyOptNum (serverPort this) = true ->
  serialFits this -> ~ portFits this ->
  detect this =
  (Throw ERR_SOCKET_BAD_PORT,
   set_localSocket
     (Some (if truthyStr (ip this) then s else setBroadcast true s)) this).
Proof.
  intros Hl Hr Hsip Hsport Hs Hp. unfold detect, bind, get, throw.
  rewrite Hsip, Hsport. cbn [negb orb].
  unfold search. rewrite sendData_eq.
  rewrite packData_ok by (cbv [isByte payloadFits]; try assumption; lia).
  unfold transmit. rewrite Hr. cbn [isSome].
  now rewrite (localSendData_cases _ this s Hl), (portFits_false this Hp).
Qed.

(** X9: what the constructor does with a UDP socket.  It starts discovery
    (one [search] frame broadcast, the one-shot listener installed, the
    discovery promise pending) exactly when no device ip is given, the
    serial is set, not 0 and an unsigned 32-bit number, the callback ip is
    set and not empty, the callback port is set and not 0, and the port
    is one that [send] accepts (1..65535).  If only the port fails, [send]
    rejects it inside [detect]: the plain instance comes back with the
    broadcast flag already switched on, nothing sent and no listener.  In
    every other case the plain instance comes back untouched.  The
    constructor itself returns in all cases: an exception inside [detect]
    only rejects the promise that [detect] returns, which nobody
    handles. *)
Theorem constructor_local_discovery (s : UdpSocket) (serial0 : option Z)
        (serverIp0 : option string) (serverPort0 : option Z)
        (ip0 : option string) (port0 : option Z) :
  let plain := localPlain s serial0 serverIp0 serverPort0 ip0 port0 in
  (ip plain = ""%string -> truthyOptNum serial0 = true ->
   truthyOptStr serverIp0 = true -> truthyOptNum serverPort0 = true ->
   serialFits plain -> portFits plain ->
   constructor (Udp s) serial0 serverIp0 serverPort0 ip0 port0 =
   Ok (mkWgCtl "" (port plain) serial0
         (Some (mkUdp true
                  (outbox s ++
                   [mkDatagram (header plain 0x94 ++ body None) (port plain)
                               "255.255.255.255"])
                  true))
         None Pending serverIp0 serverPort0 true)) /\
  (ip plain = ""%string -> truthyOptNum serial0 = true ->
   truthyOptStr serverIp0 = true -> truthyOptNum serverPort0 = true ->
   serialFits plain -> ~ portFits plain ->
   constructor (Udp s) serial0 serverIp0 serverPort0 ip0 port0 =
   Ok (set_localSocket (Some (setBroadcast true s)) plain)) /\
  (ip plain <> ""%string \/ truthyOptNum serial0 = false \/
   truthyOptStr serverIp0 = false \/ truthyOptNum serverPort0 = false \/
   ~ serialFits plain ->
   constructor (Udp s) serial0 serverIp0 serverPort0 ip0 port0 = Ok plain).
Proof.
  intros plain. rewrite constructor_udp_eq. cbv zeta.
  fold (localPlain s serial0 serverIp0 serverPort0 ip0 port0). fold plain.
  change (match ip0 with Some x => x | None => ""%string end)
    with (ip plain).
  split; [|split].
  - intros Hip Hser Hsip Hsport Hfit Hport. rewrite Hip, Hser.
    cbn [truthyStr negb andb].
    rewrite (detect_starts plain s); try assumption; try reflexivity.
    cbn [snd]. unfold set_awaiting, set_localSocket, set_detected.
    cbn [ip port serial localSocket remoteSocket detected serverIp serverPort
         awaiting].
    rewrite Hip. reflexivity.
  - intros Hip Hser Hsip Hsport Hfit Hport. rewrite Hip, Hser.
    cbn [truthyStr negb andb].
    rewrite (detect_bad_port plain s); try assumption; try reflexivity.
    cbn [snd]. rewrite Hip. reflexivity.
  - intros H.
    destruct (truthyStr (ip plain)) eqn:Hip; cbn [negb andb]; [reflexivity|].
    destruct (truthyOptNum serial0) eqn:Hser; [|reflexivity].
    f_equal.
    destruct (truthyOptStr serverIp0) eqn:Hsip;
      [|rewrite detect_guard; [reflexivity | now left]].
    destruct (truthyOptNum serverPort0) eqn:Hsport;
      [|rewrite detect_guard; [reflexivity | now right]].
    apply detect_search_fails.
    destruct H as [H|[H|[H|[H|H]]]]; try discriminate; try assumption.
    destruct (ip plain); [congruence | discriminate].
Qed.

Lemma constructor_local_discovery_witness :
  constructor (Udp (mkUdp false [] false)) (Some 1001)
              (Some "10.0.0.5"%string) (Some 9000) None None =
    Ok exampleSearching /\
  constructor (Udp (mkUdp false [] false)) (Some 1001)
              (Some "10.0.0.5"%string) (Some 9000) None (Some 0) =
    Ok (set_localSocket (Some (setBroadcast true (mkUdp false [] false)))
          (localPlain (mkUdp false [] false) (Some 1001)
             (Some "10.0.0.5"%string) (Some 9000) None (Some 0))) /\
  constructor (Udp (mkUdp false [] false)) (Some 1001) None None None None =
    Ok (localPlain (mkUdp false [] false) (Some 1001) None None None None).
Proof.
  split; [|split].
  - refine (proj1 (constructor_local_discovery (mkUdp false [] false)
                     (Some 1001) (Some "10.0.0.5"%string) (Some 9000)
                     None None) eq_refl eq_refl eq_refl eq_refl _ _).
    + cbv [serialFits localPlain serial]; lia.
    + cbv [portFits localPlain port]; lia.
  - refine (proj1 (proj2 (constructor_local_discovery (mkUdp false [] false)
                     (Some 1001) (Some "10.0.0.5"%string) (Some 9000)
                     None (Some 0))) eq_refl eq_refl eq_refl eq_refl _ _).
    + cbv [serialFits localPlain serial]; lia.
    + cbv [portFits localPlain port]; lia.
  - refine (proj2 (proj2 (constructor_local_discovery (mkUdp false [] false)
                     (Some 1001) None None None None)) _).
    right. right. left. reflexivity.
Defined.

(** ** The listener is one-shot *)

Lemma transmit_listening (data : Buffer.t) : preserves listening (transmit data).
Proof.
  intros w. unfold transmit, listening.
  destruct (remoteSocket w) as [t|] eqn:Er; cbn [isSome].
  - unfold remoteSendData, bind, get, modify. rewrite Er. reflexivity.
  - destruct (localSocket w) as [s|] eqn:El.
    + rewrite (localSendData_cases data w s El).
      destruct (_ && _); cbn [snd]; fields; [reflexivity|].
      destruct (truthyStr (ip w)); reflexivity.
    + unfold localSendData, bind, get, ret. rewrite El. cbn [snd].
      now rewrite El.
Qed.

Lemma sendData_listening (funcCode : Z) (payload : option Payload) :
  preserves listening (sendData funcCode payload).
Proof.
  intros w. rewrite sendData_eq.
  destruct (packData w funcCode payload); [|reflexivity].
  apply transmit_listening.
Qed.

Lemma serialDiffers_false (x : Z) (o : option Z) :
  serialDiffers x o = false -> o = Some x.
Proof.
  unfold serialDiffers. destruct o as [y|]; [|discriminate].
  destruct (Z.eqb_spec x y); [now subst | discriminate].
Qed.

Section OneShot.
Variable ipToHex : string -> string.
Variable parseData : Buffer.t -> result Reply.

Lemma setServerAddress_listening (sip : string) (sport : Z)
      (interval : option Z) :
  preserves listening (setServerAddress ipToHex sip sport interval).
Proof.
  unfold setServerAddress. apply preserves_bind; [apply preserves_lift|].
  intro payload. apply sendData_listening.
Qed.

(** A datagram that finds no listener and no settled promise to resume
    from changes nothing. *)
Lemma receive_idle (msg : Buffer.t) (w : WgCtl) :
  listening w = false ->
  awaiting w = false \/ detected w = Pending ->
  receive ipToHex parseData msg w = (Ok tt, w).
Proof.
  intros Hl Hw.
  unfold receive, emitMessage, resumeDetect, bind, get, modify, ret.
  unfold listening in Hl.
  destruct (localSocket w) as [s|]; [rewrite Hl|];
    (destruct Hw as [-> | ->]; [reflexivity|]);
    destruct (awaiting w); reflexivity.
Qed.

Lemma receive_undecodable (this : WgCtl) (s : UdpSocket) (sip : string)
      (sport : Z) (msg : Buffer.t) (e : JsError) :
  Searching this s sip sport -> parseData msg = Throw e ->
  receive ipToHex parseData msg this =
  (Throw e, set_localSocket (Some (removeListener s)) this).
Proof.
  intros (Hsock & Hon & _) Hparse.
  unfold receive, emitMessage, onMessage, bind, get, modify, lift.
  rewrite Hsock, Hon, Hparse. reflexivity.
Qed.

End OneShot.

(** X10: the listener of the detect flow handles one datagram only.  Once
    a first reply has been decoded, whatever its serial, every later
    datagram is ignored: it changes nothing and sends nothing.  After a
    reply with another serial, discovery therefore never completes. *)
Theorem receive_one_shot (ipToHex : string -> string)
        (parseData : Buffer.t -> result Reply) (this : WgCtl)
        (s : UdpSocket) (sip : string) (sport : Z) (msg msg2 : Buffer.t)
        (reply : Reply) :
  Searching this s sip sport -> parseData msg = Ok reply ->
  receive ipToHex parseData msg2
          (snd (receive ipToHex parseData msg this)) =
  (Ok tt, snd (receive ipToHex parseData msg this)).
Proof.
  intros Hsearch Hparse.
  destruct (serialDiffers (replySerial reply) (serial this)) eqn:Hd.
  - rewrite (receive_mismatch ipToHex parseData this s sip sport msg reply)
      by assumption.
    destruct Hsearch as (_ & _ & Hdet & _).
    cbn [snd]. apply receive_idle; [reflexivity | now right].
  - apply serialDiffers_false in Hd.
    rewrite (receive_match ipToHex parseData this s sip sport msg reply)
      by assumption.
    apply receive_idle.
    + now rewrite setServerAddress_listening.
    + left.
      assert (Hb : socketBlind awaiting) by (split; reflexivity).
      now rewrite (preserves_setServerAddress ipToHex awaiting sip sport None
                     Hb).
Qed.

Lemma receive_one_shot_witness :
  receive (fun _ => "0a000005"%string)
          (fun _ => Ok (mkReply 1002 "10.0.0.77")) [1]
          (snd (receive (fun _ => "0a000005"%string)
                        (fun _ => Ok (mkReply 1002 "10.0.0.77")) []
                        exampleSearching)) =
  (Ok tt,
   snd (receive (fun _ => "0a000005"%string)
                (fun _ => Ok (mkReply 1002 "10.0.0.77")) []
                exampleSearching)).
Proof.
  exact (receive_one_shot (fun _ => "0a000005"%string)
           (fun _ => Ok (mkReply 1002 "10.0.0.77")) exampleSearching _
           "10.0.0.5" 9000 [] [1] (mkReply 1002 "10.0.0.77")
           exampleSearching_searching eq_refl).
Defined.

(** X11: a first datagram that the decoder rejects uses up the listener
    all the same: the decoder's exception leaves the handler, the cached ip
    and the sockets' traffic stay as they were, [setServerAddress] is not
    called, and every later datagram is ignored. *)
Theorem receive_decode_error (ipToHex : string -> string)
        (parseData : Buffer.t -> result Reply) (this : WgCtl)
        (s : UdpSocket) (sip : string) (sport : Z) (msg : Buffer.t)
        (e : JsError) :
  Searching this s sip sport -> parseData msg = Throw e ->
  receive ipToHex parseData msg this =
    (Throw e, set_localSocket (Some (removeListener s)) this) /\
  forall msg2,
    receive ipToHex parseData msg2
            (set_localSocket (Some (removeListener s)) this) =
    (Ok tt, set_localSocket (Some (removeListener s)) this).
Proof.
  intros Hsearch Hparse. split.
  - now apply (receive_undecodable ipToHex parseData this s sip sport).
  - intros msg2. destruct Hsearch as (_ & _ & Hdet & _).
    apply receive_idle; [reflexivity | now right].
Qed.

Lemma receive_decode_error_witness :
  receive (fun _ => "0a000005"%string)
          (fun _ => Throw (Error "bad reply")) [] exampleSearching =
  (Throw (Error "bad reply"),
   set_localSocket
     (Some (removeListener
              (mkUdp true
                 [mkDatagram (header exampleLocal 0x94 ++ body None) 60000
                             "255.255.255.255"]
                 true)))
     exampleSearching).
Proof.
  exact (proj1 (receive_decode_error (fun _ => "0a000005"%string)
                  (fun _ => Throw (Error "bad reply")) exampleSearching _
                  "10.0.0.5" 9000 [] (Error "bad reply")
                  exampleSearching_searching eq_refl)).
Defined.

(** C2 does not hold of the code: the listener is installed with [once]
    and returns early on a reply whose serial differs, so that reply uses
    the listener up.  A reply with the instance's own serial that arrives
    after it is not handled at all: the cached ip stays as it was, nothing
    is sent, [setServerAddress] is never called and the discovery promise
    stays pending. *)
Theorem receive_own_reply_after_foreign (ipToHex : string -> string)
        (parseData : Buffer.t -> result Reply) (this : WgCtl)
        (s : UdpSocket) (sip : string) (sport : Z) (msg msg2 : Buffer.t)
        (reply reply2 : Reply) :
  Searching this s sip sport ->
  parseData msg = Ok reply ->
  serialDiffers (replySerial reply) (serial this) = true ->
  parseData msg2 = Ok reply2 ->
  serial this = Some (replySerial reply2) ->
  receive ipToHex parseData msg2
          (snd (receive ipToHex parseData msg this)) =
    (Ok tt, set_localSocket (Some (removeListener s)) this) /\
  ip (snd (receive ipToHex parseData msg2
                   (snd (receive ipToHex parseData msg this)))) = ip this /\
  detected (snd (receive ipToHex parseData msg2
                         (snd (receive ipToHex parseData msg this)))) =
    Pending /\
  option_map outbox
    (localSocket (snd (receive ipToHex parseData msg2
                               (snd (receive ipToHex parseData msg this))))) =
    Some (outbox s).
Proof.
  intros Hsearch Hparse Hdiff _ _.
  rewrite (receive_mismatch ipToHex parseData this s sip sport msg reply)
    by assumption.
  destruct Hsearch as (_ & _ & Hdet & _).
  cbn [snd].
  rewrite receive_idle; [|reflexivity | now right].
  cbn [snd]. repeat split. exact Hdet.
Qed.

Lemma receive_own_reply_after_foreign_witness :
  ip (snd (receive (fun _ => "0a000005"%string)
             (fun m => match m with
                       | [] => Ok (mkReply 1002 "10.0.0.77")
                       | _ => Ok (mkReply 1001 "10.0.0.42")
                       end) [1]
             (snd (receive (fun _ => "0a000005"%string)
                     (fun m => match m with
                               | [] => Ok (mkReply 1002 "10.0.0.77")
                               | _ => Ok (mkReply 1001 "10.0.0.42")
                               end) [] exampleSearching)))) = ""%string.
Proof.
  exact (proj1 (proj2
           (receive_own_reply_after_foreign (fun _ => "0a000005"%string)
              (fun m => match m with
                        | [] => Ok (mkReply 1002 "10.0.0.77")
                        | _ => Ok (mkReply 1001 "10.0.0.42")
                        end)
              exampleSearching _ "10.0.0.5" 9000 [] [1]
              (mkReply 1002 "10.0.0.77") (mkReply 1001 "10.0.0.42")
              exampleSearching_searching eq_refl eq_refl eq_refl eq_refl))).
Defined.

(** ** Commands after discovery *)

Lemma socketKind_local (w : WgCtl) :
  socketKind w = (true, false) ->
  (exists s, localSocket w = Some s) /\ remoteSocket w = None.
Proof.
  unfold socketKind.
  destruct (localSocket w) as [s|], (remoteSocket w) as [t|];
    cbn [isSome]; intros [= ]; eauto.
Qed.

Lemma runAll_stable {T} (f : WgCtl -> T) (ipToHex : string -> string)
      (Date : Type) (buildBcdDate : Date -> Payload)
      (cs : list (Command Date)) (w : WgCtl) :
  socketStable f -> (forall v w', f (set_ip v w') = f w') ->
  f (runAll ipToHex buildBcdDate cs w) = f w.
Proof.
  intros Hst Hip. revert w. induction cs as [|c cs IH]; intro w;
    [reflexivity|].
  change (f (runAll ipToHex buildBcdDate cs
               (snd (run ipToHex buildBcdDate c w))) = f w).
  rewrite IH. now apply (run_stable f Hst).
Qed.

Lemma runAll_ip (ipToHex : string -> string) (Date : Type)
      (buildBcdDate : Date -> Payload) (cs : list (Command Date))
      (w : WgCtl) :
  forallb (fun c => negb (isSetAddress c)) cs = true ->
  ip (runAll ipToHex buildBcdDate cs w) = ip w.
Proof.
  revert w. induction cs as [|c cs IH]; intros w Hcs; [reflexivity|].
  cbn [forallb] in Hcs. apply andb_prop in Hcs. destruct Hcs as [Hc Hcs].
  change (ip (runAll ipToHex buildBcdDate cs
                (snd (run ipToHex buildBcdDate c w))) = ip w).
  rewrite IH by assumption.
  apply (preserves_run ipToHex Date buildBcdDate ip socketBlind_ip).
  now destruct (isSetAddress c).
Qed.

(** X12: once a reply with the instance's serial and a usable ip (not
    "192.168.0.0", not empty) has been handled, and for as long as
    [setAddress] is not called, every command that returns sends its frame
    to that ip, on the configured port, and leaves the broadcast flag as
    it finds it, whatever commands came before it and whether they
    returned or threw. *)
Theorem commands_after_discovery (ipToHex : string -> string) (Date : Type)
        (buildBcdDate : Date -> Payload)
        (parseData : Buffer.t -> result Reply) (this : WgCtl)
        (s : UdpSocket) (sip : string) (sport : Z) (msg : Buffer.t)
        (reply : Reply) (cs : list (Command Date)) (c : Command Date) :
  Searching this s sip sport -> remoteSocket this = None ->
  parseData msg = Ok reply ->
  serial this = Some (replySerial reply) ->
  replyIp reply <> "192.168.0.0"%string -> replyIp reply <> ""%string ->
  forallb (fun c' => negb (isSetAddress c')) cs = true ->
  fst (run ipToHex buildBcdDate c
           (runAll ipToHex buildBcdDate cs
                   (snd (receive ipToHex parseData msg this)))) = Ok tt ->
  exists s1 data,
    localSocket (runAll ipToHex buildBcdDate cs
                        (snd (receive ipToHex parseData msg this))) =
      Some s1 /\
    firstn 2 data = [0x17; funcCodeOf c] /\
    localSocket (snd (run ipToHex buildBcdDate c
                          (runAll ipToHex buildBcdDate cs
                             (snd (receive ipToHex parseData msg this))))) =
    Some (mkUdp (broadcast s1)
                (outbox s1 ++ [mkDatagram data (port this) (replyIp reply)])
                (onceMessage s1)).
Proof.
  intros Hsearch Hr Hparse Hser Hsent Hne Hcs Hok.
  set (st0 := snd (receive ipToHex parseData msg this)) in *.
  set (st := runAll ipToHex buildBcdDate cs st0) in *.
  assert (Hip : ip st = replyIp reply).
  { subst st. rewrite runAll_ip by assumption. subst st0.
    rewrite (receive_match ipToHex parseData this s sip sport msg reply)
      by assumption.
    rewrite (preserves_setServerAddress ipToHex ip sip sport None
               socketBlind_ip).
    destruct (String.eqb_spec (replyIp reply) "192.168.0.0");
      [contradiction | reflexivity]. }
  assert (Hport : port st = port this).
  { subst st.
    rewrite (runAll_stable port ipToHex Date buildBcdDate cs st0
               (socketBlind_stable port socketBlind_port))
      by reflexivity.
    subst st0.
    apply (receive_preserves port (socketBlind_stable port socketBlind_port)).
    repeat split. }
  assert (Hkind : socketKind st = (true, false)).
  { subst st.
    rewrite (runAll_stable socketKind ipToHex Date buildBcdDate cs st0
               socketKind_stable) by reflexivity.
    subst st0.
    rewrite (receive_preserves socketKind socketKind_stable ipToHex parseData
               socketKind_flowBlind).
    destruct Hsearch as (Hl & _). unfold socketKind. now rewrite Hl, Hr. }
  destruct (socketKind_local st Hkind) as [[s1 Hl1] Hr1].
  destruct (run_Ok_inv ipToHex Date buildBcdDate c st Hok)
    as (p & data & _ & _ & _ & Hhd & _ & Ht & Hsnd).
  destruct (transmit_local data st s1 Hl1 Hr1 Ht) as [_ Htr].
  exists s1, data. split; [exact Hl1|]. split; [exact Hhd|].
  rewrite Hsnd, Htr, Hip, Hport.
  destruct (replyIp reply) as [|ch rest]; [congruence|].
  destruct (isSetAddress c); reflexivity.
Qed.

Lemma commands_after_discovery_witness :
  exists s1 data,
    localSocket
      (runAll (fun _ => "0a000005"%string) (fun _ : unit => PNumber 0)
              [CGetDate; COpenDoor 256]
              (snd (receive (fun _ => "0a000005"%string)
                      (fun _ => Ok (mkReply 1001 "10.0.0.42")) []
                      exampleSearching))) = Some s1 /\
    firstn 2 data = [0x17; 0x40] /\
    localSocket
      (snd (run (fun _ => "0a000005"%string) (fun _ : unit => PNumber 0)
                (COpenDoor 1)
                (runAll (fun _ => "0a000005"%string)
                        (fun _ : unit => PNumber 0)
                        [CGetDate; COpenDoor 256]
                        (snd (receive (fun _ => "0a000005"%string)
                                (fun _ => Ok (mkReply 1001 "10.0.0.42")) []
                                exampleSearching))))) =
    Some (mkUdp (broadcast s1)
                (outbox s1 ++ [mkDatagram data 60000 "10.0.0.42"])
                (onceMessage s1)).
Proof.
  apply (commands_after_discovery (fun _ => "0a000005"%string) unit
           (fun _ => PNumber 0) (fun _ => Ok (mkReply 1001 "10.0.0.42"))
           exampleSearching _ "10.0.0.5" 9000 [] (mkReply 1001 "10.0.0.42")
           [CGetDate; COpenDoor 256] (COpenDoor 1)
           exampleSearching_searching);
    try reflexivity; discriminate.
Defined.

(** ** Byte-exact frames of the commands *)

(** X13: [setAuth] with a card number in 0..2^32-1 sends the frame made of
    the header with function code 0x50, the card number little-endian
    (four bytes that decode back to it), the fixed validity dates
    20 19 01 01 and 20 29 12 31, the four door flags, and 40 zero bytes. *)
Theorem setAuth_frame (cardNo door : Z) (this : WgCtl) :
  serialFits this -> 0 <= cardNo <= 4294967295 ->
  setAuth cardNo door this =
    transmit (header this 0x50
              ++ Buffer.le_bytes 4 cardNo
              ++ [0x20; 0x19; 0x01; 0x01; 0x20; 0x29; 0x12; 0x31]
              ++ doorFlags door ++ repeat 0 40) this /\
  fromLE (Buffer.le_bytes 4 cardNo) = cardNo.
Proof.
  intros Hs Hc. split; [|now apply fromLE_le_bytes].
  unfold setAuth, bind, lift. rewrite setAuthPayload_eq by assumption.
  rewrite sendData_ok; try assumption.
  - reflexivity.
  - cbv [isByte]; lia.
  - cbn [payloadFits]. rewrite !length_app, BufferFacts.le_bytes_length.
    cbn; lia.
Qed.

Lemma setAuth_frame_witness :
  setAuth 305419896 2 exampleKnown =
    transmit (header exampleKnown 0x50
              ++ Buffer.le_bytes 4 305419896
              ++ [0x20; 0x19; 0x01; 0x01; 0x20; 0x29; 0x12; 0x31]
              ++ doorFlags 2 ++ repeat 0 40) exampleKnown /\
  fromLE (Buffer.le_bytes 4 305419896) = 305419896.
Proof.
  apply (setAuth_frame 305419896 2 exampleKnown).
  - cbv [serialFits exampleKnown serial]; lia.
  - lia.
Defined.

(** X14: [getAuth] and [removeAuth] with a card number in 0..2^32-1 send
    the same frame but for the function code (0x5a, 0x52): the header, the
    card number little-endian, and 52 zero bytes. *)
Theorem card_query_frames (cardNo : Z) (this : WgCtl) :
  serialFits this -> 0 <= cardNo <= 4294967295 ->
  getAuth cardNo this =
    transmit (header this 0x5a ++ Buffer.le_bytes 4 cardNo ++ repeat 0 52)
             this /\
  removeAuth cardNo this =
    transmit (header this 0x52 ++ Buffer.le_bytes 4 cardNo ++ repeat 0 52)
             this.
Proof.
  intros Hs Hc.
  assert (Hfit : payloadFits
                   (Some (PBuffer (Buffer.le_bytes 4 cardNo ++ repeat 0 52)))).
  { cbn [payloadFits]. rewrite length_app, BufferFacts.le_bytes_length.
    cbn; lia. }
  split; unfold getAuth, removeAuth, bind, lift;
    rewrite cardPayload_eq by assumption;
    (rewrite sendData_ok; try assumption; [|cbv [isByte]; lia]);
    cbn [body]; unfold pad56;
    rewrite length_app, BufferFacts.le_bytes_length, repeat_length;
    cbn [Nat.add Nat.sub repeat]; now rewrite app_nil_r.
Qed.

Lemma card_query_frames_witness :
  getAuth 7 exampleKnown =
    transmit (header exampleKnown 0x5a ++ Buffer.le_bytes 4 7 ++ repeat 0 52)
             exampleKnown /\
  removeAuth 7 exampleKnown =
    transmit (header exampleKnown 0x52 ++ Buffer.le_bytes 4 7 ++ repeat 0 52)
             exampleKnown.
Proof.
  apply (card_query_frames 7 exampleKnown).
  - cbv [serialFits exampleKnown serial]; lia.
  - lia.
Defined.

(** X15: with a fitting serial, the commands without arguments always
    build their frame and hand it to the transport; [search], [getDate] and
    [getServerAddress] send the header of their function code followed by
    56 zero bytes, and [clearAuth] sends the header of 0x54, the token
    55 aa aa 55, and 52 zero bytes. *)
Theorem parameterless_frames (this : WgCtl) :
  serialFits this ->
  search this = transmit (header this 0x94 ++ repeat 0 56) this /\
  getDate this = transmit (header this 0x32 ++ repeat 0 56) this /\
  getServerAddress this = transmit (header this 0x92 ++ repeat 0 56) this /\
  clearAuth this =
    transmit (header this 0x54 ++ [0x55; 0xaa; 0xaa; 0x55] ++ repeat 0 52)
             this.
Proof.
  intros Hs.
  repeat split; unfold search, getDate, getServerAddress, clearAuth;
    (rewrite sendData_ok; try assumption;
     [reflexivity | cbv [isByte]; lia | cbn; try lia; exact I]).
Qed.

Lemma parameterless_frames_witness :
  clearAuth exampleRemote =
    transmit (header exampleRemote 0x54 ++ [0x55; 0xaa; 0xaa; 0x55]
              ++ repeat 0 52) exampleRemote.
Proof.
  refine (proj2 (proj2 (proj2 (parameterless_frames exampleRemote _)))).
  cbv [serialFits exampleRemote serial]; lia.
Defined.

Lemma slice_splice (buf : Buffer.t) (offset : nat) (bs : list Z) :
  (offset + length bs <= length buf)%nat ->
  Buffer.slice (Buffer.splice buf offset bs) offset (length bs) = bs.
Proof.
  intros H. unfold Buffer.slice, Buffer.splice.
  rewrite skipn_app, length_firstn.
  replace (Nat.min offset (length buf)) with offset by lia.
  rewrite Nat.sub_diag, skipn_firstn_comm, Nat.sub_diag. cbn [firstn skipn app].
  rewrite firstn_app, firstn_all, Nat.sub_diag. cbn [firstn].
  now rewrite app_nil_r.
Qed.

(** X16: whatever [ipToHex] returns, the payload of [setAddress] is built
    without an exception, is 16 bytes long and ends with the token
    55 aa aa 55 at offsets 12..15; when the three encoded addresses decode
    to four bytes each, the payload is these twelve bytes, in the order ip,
    subnet, gateway, followed by the token. *)
Theorem setAddress_payload (ipToHex : string -> string)
        (ip0 subnet gateway : string) :
  (exists payload,
     setAddressPayload ipToHex ip0 subnet gateway = Ok payload /\
     length payload = 16%nat /\
     Buffer.slice payload 12 4 = [0x55; 0xaa; 0xaa; 0x55]) /\
  (forall q1 q2 q3,
     encodesQuad (ipToHex ip0) q1 -> encodesQuad (ipToHex subnet) q2 ->
     encodesQuad (ipToHex gateway) q3 ->
     setAddressPayload ipToHex ip0 subnet gateway =
     Ok (q1 ++ q2 ++ q3 ++ [0x55; 0xaa; 0xaa; 0x55])).
Proof.
  split.
  - unfold setAddressPayload.
    destruct (write_ok (Buffer.alloc 16) (ipToHex ip0) 0) as (p1 & -> & H1);
      [cbn; lia|].
    cbn [rbind].
    destruct (write_ok p1 (ipToHex subnet) 4) as (p2 & -> & H2);
      [rewrite H1; cbn; lia|].
    cbn [rbind].
    destruct (write_ok p2 (ipToHex gateway) 8) as (p3 & -> & H3);
      [rewrite H2, H1; cbn; lia|].
    cbn [rbind].
    assert (H16 : length p3 = 16%nat) by (rewrite H3, H2, H1; reflexivity).
    unfold Buffer.write. rewrite H16. cbn [Nat.ltb Nat.leb Nat.sub].
    change (Buffer.hexDecode 4 "55aaaa55") with [0x55; 0xaa; 0xaa; 0x55].
    eexists. split; [reflexivity|]. split.
    + rewrite splice_length; [exact H16 | rewrite H16; cbn; lia].
    + apply (slice_splice p3 12 [0x55; 0xaa; 0xaa; 0x55]).
      rewrite H16; cbn; lia.
  - intros q1 q2 q3 [L1 E1] [L2 E2] [L3 E3].
    destruct q1 as [|a1 [|a2 [|a3 [|a4 [|? ?]]]]]; try discriminate L1.
    destruct q2 as [|b1 [|b2 [|b3 [|b4 [|? ?]]]]]; try discriminate L2.
    destruct q3 as [|c1 [|c2 [|c3 [|c4 [|? ?]]]]]; try discriminate L3.
    unfold setAddressPayload, Buffer.write.
    cbn [Buffer.alloc repeat length Nat.ltb Nat.leb Nat.sub].
    rewrite (E1 16%nat) by lia. cbn [rbind Buffer.splice firstn skipn app
                                     length Nat.add Nat.ltb Nat.leb Nat.sub].
    rewrite (E2 12%nat) by lia. cbn [rbind Buffer.splice firstn skipn app
                                     length Nat.add Nat.ltb Nat.leb Nat.sub].
    rewrite (E3 8%nat) by lia. cbn [rbind Buffer.splice firstn skipn app
                                    length Nat.add Nat.ltb Nat.leb Nat.sub].
    reflexivity.
Qed.

Lemma encodesQuad_example :
  encodesQuad "c0a80164" [192; 168; 1; 100].
Proof.
  split; [reflexivity|].
  intros n Hn. destruct n as [|[|[|[|[|k]]]]]; try lia. reflexivity.
Defined.

Lemma setAddress_payload_witness :
  setAddressPayload (fun _ => "c0a80164"%string) "192.168.1.100"
                    "255.255.255.0" "192.168.1.1" =
  Ok ([192; 168; 1; 100] ++ [192; 168; 1; 100] ++ [192; 168; 1; 100]
      ++ [0x55; 0xaa; 0xaa; 0x55]).
Proof.
  exact (proj2 (setAddress_payload (fun _ => "c0a80164"%string)
                  "192.168.1.100" "255.255.255.0" "192.168.1.1")
           _ _ _ encodesQuad_example encodesQuad_example
           encodesQuad_example).
Defined.

(** X17: [setServerAddress] with a port in 0..65535 and an interval in
    0..255 (0 when none is given) sends the header of 0x90 followed by four
    address bytes, the port little-endian at payload offsets 4..5, the
    interval at offset 6, and 49 zero bytes.  The address bytes are the
    first four bytes that the string from [ipToHex] decodes to, filled up
    with zeros; whatever that string is, the port and the interval are
    written as given. *)
Theorem setServerAddress_frame (ipToHex : string -> string) (ip0 : string)
        (port0 : Z) (interval : option Z) (this : WgCtl) :
  serialFits this -> 0 <= port0 <= 65535 ->
  isByte (match interval with Some i => i | None => 0 end) ->
  setServerAddress ipToHex ip0 port0 interval this =
    transmit (header this 0x90
              ++ firstn 4 (Buffer.hexDecode 7 (ipToHex ip0) ++ repeat 0 4)
              ++ [port0 mod 256; port0 / 256;
                  match interval with Some i => i | None => 0 end]
              ++ repeat 0 49) this /\
  fromLE [port0 mod 256; port0 / 256] = port0.
Proof.
  intros Hs Hp Hi. split.
  - unfold setServerAddress, bind, lift.
    rewrite setServerAddressPayload_eq by assumption.
    assert (Hl : length (firstn 4 (Buffer.hexDecode 7 (ipToHex ip0)
                                   ++ repeat 0 4)) = 4%nat).
    { rewrite length_firstn, length_app, repeat_length. lia. }
    rewrite sendData_ok; try assumption.
    + cbn [body]. unfold pad56. rewrite length_app, Hl.
      cbn [length Nat.add Nat.sub]. now rewrite <- !app_assoc.
    + cbv [isByte]; lia.
    + cbn [payloadFits]. rewrite length_app, Hl. cbn; lia.
  - cbn -[Z.modulo Z.div Z.mul Z.add].
    Z.to_euclidean_division_equations. lia.
Qed.

Lemma setServerAddress_frame_witness :
  setServerAddress (fun _ => "0a000005"%string) "10.0.0.5" 9000 None
                   exampleKnown =
    transmit (header exampleKnown 0x90
              ++ firstn 4 (Buffer.hexDecode 7 "0a000005" ++ repeat 0 4)
              ++ [9000 mod 256; 9000 / 256; 0] ++ repeat 0 49)
             exampleKnown /\
  fromLE [9000 mod 256; 9000 / 256] = 9000.
Proof.
  apply (setServerAddress_frame (fun _ => "0a000005"%string) "10.0.0.5"
           9000 None exampleKnown).
  - cbv [serialFits exampleKnown serial]; lia.
  - lia.
  - cbv [isByte]; lia.
Defined.

(** ** A failed broadcast *)

(** X18: when the send of a frame that [send] has accepted (port in
    1..65535) fails, the broadcast flag is switched off if no ip is cached
    at that moment, whatever the flag was before the send; if an ip has
    been cached in between (the reply handler ran), the flag that the send
    switched on stays on.  The datagram stays handed over in both
    cases. *)
Theorem localSendFailed_flag (data : Buffer.t) (this : WgCtl)
        (s : UdpSocket) (newIp : string) :
  localSocket this = Some s -> ip this = ""%string ->
  newIp <> ""%string -> portFits this ->
  let sent := snd (localSendData data this) in
  localSocket (snd (localSendFailed sent)) =
    Some (mkUdp false
            (outbox s ++ [mkDatagram data (port this) "255.255.255.255"])
            (onceMessage s)) /\
  localSocket (snd (localSendFailed (set_ip newIp sent))) =
    Some (mkUdp true
            (outbox s ++ [mkDatagram data (port this) "255.255.255.255"])
            (onceMessage s)).
Proof.
  intros Hl Hip Hnew Hport sent. subst sent.
  rewrite (localSendData_eq data this s Hl Hport), Hip.
  cbn [snd truthyStr negb].
  unfold localSendFailed, bind, get, modify, ret. fields. rewrite Hip.
  cbn [truthyStr negb snd]. fields. split; [reflexivity|].
  destruct newIp as [|ch rest]; [congruence|]. reflexivity.
Qed.

Lemma localSendFailed_flag_witness :
  localSocket (snd (localSendFailed (snd (localSendData [0x17] exampleLocal))))
    = Some (mkUdp false [mkDatagram [0x17] 60000 "255.255.255.255"] false).
Proof.
  refine (proj1 (localSendFailed_flag [0x17] exampleLocal
                   (mkUdp false [] false) "10.0.0.42" eq_refl eq_refl _ _)).
  - discriminate.
  - cbv [portFits exampleLocal port]; lia.
Defined.
